(** * PyPTZ: a shallow embedding of the PTZ camera facades

    The development follows the three modules of the package:
    - [pyptz/sunapi_control.py]  (class [SUNAPICamera], Hanwha cameras),
    - [pyptz/vapix_control.py]   (class [VAPIXCamera], Axis cameras),
    - [pyptz/onvif_control.py]   (class [ONVIFCamera], SOAP cameras).

    Conventions of the embedding.
    - Numbers.  Positions and deltas are Python floats: they are embedded
      as the binary64 floats of the kernel ([PrimFloat]), so [+], [-],
      [abs], [<] and [==] round and compare as the code does, infinities
      and NaN included.  An int that a caller passes where a float is
      expected is taken at its float value; an int that the code writes
      itself (a literal, a time stamp) is a [VInt].  Where a statement is
      about the real number a float stands for, [exact] gives that number
      as a rational.
    - None.  An argument that may be [None] is an [option].
    - Effects.  A method is a computation in the monad [IO W]: it threads a
      world [W] (the requests sent so far, the texts printed, the state of
      the device) and ends in one of three ways: it returns a value, it
      raises an exception, or it exits the process ([exit(1)]).
    - Collaborators.  [requests.get], [BeautifulSoup(...).get_text()],
      [float] on text and the ONVIF PTZ service are outside the package;
      they are Section variables, so every theorem holds for each of their
      possible behaviours. *)

(** The same holds for [int] on text, [time.time] and [Image.open], which
    the remaining operations of the facades use.  Of the ONVIF service, the
    preset calls are in [ONVIF] and the home-position calls in
    [ONVIFHome]. *)

From Stdlib Require Import QArith ZArith String Ascii List Bool Lia Lqa.
From Stdlib Require Import DecimalString DecimalPos DecimalZ.
From Stdlib Require Import Floats.
Import ListNotations.
Set Warnings "-inexact-float".
Local Open Scope float_scope.
Local Open Scope string_scope.

(** ** Python run-time notions shared by the three facades *)

Module Py.

(** Values that appear in a parameter dictionary. *)
Inductive value : Type :=
| VNone : value
| VBool : bool -> value
| VInt : Z -> value
| VNum : float -> value
| VStr : string -> value.

(** The exceptions the package can raise itself or meet while decoding. *)
Inductive exn : Type :=
| Exception : string -> exn      (* raise Exception(msg) *)
| IndexError : exn               (* list index out of range *)
| ValueError : exn               (* float() on text that is no number *)
| Fault : string -> exn.         (* raised by the ONVIF library *)

(** How a call ends. *)
Inductive outcome (A : Type) : Type :=
| Return : A -> outcome A
| Raise : exn -> outcome A
| Exit : Z -> outcome A.          (* exit(code): SystemExit *)
Arguments Return {A} _.
Arguments Raise {A} _.
Arguments Exit {A} _.

(** The monad of calls over a world [W]. *)
Definition IO (W A : Type) : Type := W -> outcome A * W.

Definition ret {W A} (a : A) : IO W A := fun w => (Return a, w).

Definition bind {W A B} (m : IO W A) (k : A -> IO W B) : IO W B :=
  fun w =>
    match m w with
    | (Return a, w') => k a w'
    | (Raise e, w') => (Raise e, w')
    | (Exit c, w') => (Exit c, w')
    end.

Definition raise {W A} (e : exn) : IO W A := fun w => (Raise e, w).

Definition exit {W A} (code : Z) : IO W A := fun w => (Exit code, w).

(** [opt e o]: the value of [o], or exception [e] when there is none. *)
Definition opt {W A} (e : exn) (o : option A) : IO W A :=
  match o with
  | Some a => ret a
  | None => raise e
  end.

(** [str(x)] for a value that is a string or [None]. *)
Definition str (x : option string) : string :=
  match x with
  | Some s => s
  | None => "None"
  end.

(** [x in (a, b, ..., None)] for an argument that is a string or [None]:
    membership in a tuple of string constants that also holds [None]. *)
Definition in_choices_or_None (x : option string) (choices : list string) : bool :=
  match x with
  | None => true
  | Some s => existsb (String.eqb s) choices
  end.

(** The real number that a finite float stands for; infinities and NaN
    stand for none. *)
Definition exact (x : float) : option Q :=
  match Prim2SF x with
  | S754_zero _ => Some 0%Q
  | S754_finite s m e =>
      Some ((if s then Qopp else (fun q => q)) (inject_Z (Zpos m) * Qpower 2 e)%Q)
  | S754_infinity _ | S754_nan => None
  end.

(** A float that is not NaN: it compares equal to itself. *)
Definition is_number (x : float) : Prop := (x =? x)%float = true.

(** [dict.get]-like lookup in a parameter dictionary kept in insertion order. *)
Fixpoint lookup (k : string) (d : list (string * value)) : option value :=
  match d with
  | [] => None
  | (k', v) :: d' => if String.eqb k k' then Some v else lookup k d'
  end.

(** A number or [None] as a dictionary value. *)
Definition num (x : option float) : value :=
  match x with
  | Some q => VNum q
  | None => VNone
  end.

End Py.
Import Py.

Declare Scope io_scope.
Delimit Scope io_scope with io.
Notation "x <- m ;; k" := (bind m (fun x => k))
  (at level 61, m at next level, right associativity) : io_scope.
Notation "m ;;; k" := (bind m (fun _ => k))
  (at level 61, right associativity) : io_scope.

(** ** Text primitives used by the status decoders *)

Module Text.

(** [c.isspace()] on the characters below 256: tab, line feed, vertical
    tab, form feed, carriage return (9..13), the four separators 28..31,
    space (32), next line (133) and no-break space (160). *)
Definition isspace (c : ascii) : bool :=
  let n := nat_of_ascii c in
  ((9 <=? n) && (n <=? 13) || (28 <=? n) && (n <=? 32)
   || (n =? 133) || (n =? 160))%nat.

(** [s.split()]: the maximal runs of characters that are not white space.
    [word] holds the run that is being read. *)
Fixpoint split_from (word : string) (s : string) : list string :=
  match s with
  | EmptyString =>
      match word with
      | EmptyString => []
      | _ => [word]
      end
  | String c s' =>
      if isspace c then
        match word with
        | EmptyString => split_from EmptyString s'
        | _ => word :: split_from EmptyString s'
        end
      else split_from (word ++ String c EmptyString) s'
  end.

Definition split (s : string) : list string := split_from EmptyString s.

(** [s.split(sep)] for a one-character separator: the pieces between the
    separators, empty pieces included; never the empty list. *)
Fixpoint split_on (sep : ascii) (s : string) : list string :=
  match s with
  | EmptyString => [EmptyString]
  | String c s' =>
      if Ascii.eqb c sep then EmptyString :: split_on sep s'
      else
        match split_on sep s' with
        | [] => [String c EmptyString]
        | piece :: pieces => String c piece :: pieces
        end
  end.

(** Decimal digits. *)
Definition digit (c : ascii) : option Z :=
  let n := nat_of_ascii c in
  if ((48 <=? n) && (n <=? 57))%nat then Some (Z.of_nat (n - 48)) else None.

(** [digits acc s]: the number read so far is [acc]; returns the number and
    how many digits were consumed, and the rest of the text. *)
Fixpoint digits (acc : Z) (count : nat) (s : string) : Z * nat * string :=
  match s with
  | EmptyString => (acc, count, s)
  | String c s' =>
      match digit c with
      | Some d => digits (10 * acc + d) (S count) s'
      | None => (acc, count, s)
      end
  end.

(** A plain integer literal, [[+-]digits] with at least one digit.  It is
    the instance of [int] used for the concrete runs below. *)
Definition unsigned_integer (s : string) : option Z :=
  let '(n, count, rest) := digits 0 0 s in
  match rest with
  | EmptyString => if (0 <? count)%nat then Some n else None
  | _ => None
  end.

Definition integer (s : string) : option Z :=
  match s with
  | String "-" s' => option_map Z.opp (unsigned_integer s')
  | String "+" s' => unsigned_integer s'
  | _ => unsigned_integer s
  end.

(** The float of a natural number below 2^63; exact below 2^53. *)
Definition float_of_Z (n : Z) : float := PrimFloat.of_uint63 (Uint63.of_Z n).

(** The float [10^k]; every product is exact for [k <= 22]. *)
Fixpoint pow10 (k : nat) : float :=
  match k with
  | O => 1
  | S k' => 10 * pow10 k'
  end.

(** The float nearest to [n * 10^p], for [0 <= n < 2^53] and [|p| <= 22]:
    then [n] and [10^|p|] are floats, and the one multiplication or
    division rounds to the nearest float, as [float] on text does. *)
Definition scaled (n p : Z) : option float :=
  if ((0 <=? n) && (n <? 2 ^ 53) && (-22 <=? p) && (p <=? 22))%Z
  then Some (if (p <? 0)%Z
             then float_of_Z n / pow10 (Z.to_nat (- p))
             else float_of_Z n * pow10 (Z.to_nat p))
  else None.

(** [s.lower()] on the letters A to Z. *)
Definition lower (c : ascii) : ascii :=
  let n := nat_of_ascii c in
  if ((65 <=? n) && (n <=? 90))%nat then ascii_of_nat (n + 32) else c.

Fixpoint lowercase (s : string) : string :=
  match s with
  | EmptyString => EmptyString
  | String c s' => String (lower c) (lowercase s')
  end.

(** A part of [float] on text: a decimal literal
    [digits[.digits][e[+-]digits]] with at least one digit before the
    exponent, or one of [nan], [inf], [infinity] in any case of the
    letters; [decimal] below adds the sign.  On such a text [float] returns
    the float nearest to the number written, which is what [scaled]
    computes.  It is used for the concrete runs only, whose replies are of
    this form; the theorems hold for every [float].  Not covered, and read
    as [None] here, are the literals that need more than one rounding
    (digits that make 2^53 or more, a power of ten beyond 22), white space
    around the literal and underscores between its digits; no run below
    contains one. *)
Definition unsigned_decimal (s : string) : option float :=
  if String.eqb (lowercase s) "nan" then Some nan
  else if String.eqb (lowercase s) "inf" || String.eqb (lowercase s) "infinity"
  then Some infinity
  else
    let '(int_part, n_int, rest) := digits 0 0 s in
    let '(all, n_frac, rest') :=
      match rest with
      | String "." s' => digits int_part 0 s'
      | _ => (int_part, 0%nat, rest)
      end in
    if (0 <? n_int + n_frac)%nat
    then
      match rest' with
      | EmptyString => scaled all (- Z.of_nat n_frac)
      | String c s'' =>
          if Ascii.eqb c "e" || Ascii.eqb c "E"
          then
            match integer s'' with
            | Some e => scaled all (e - Z.of_nat n_frac)
            | None => None
            end
          else None
      end
    else None.

Definition decimal (s : string) : option float :=
  match s with
  | String "-" s' => option_map PrimFloat.opp (unsigned_decimal s')
  | String "+" s' => unsigned_decimal s'
  | _ => unsigned_decimal s
  end.



(** [s.split(sep)] for a separator of several characters: the pieces
    between the occurrences of [sep], found from the left and not
    overlapping.  [skip] counts the characters of a found separator that
    are still to be passed over; [piece] holds the piece that is being read. *)
Fixpoint split_str_from (sep : string) (skip : nat) (piece : string) (s : string)
  : list string :=
  match s with
  | EmptyString => [piece]
  | String c s' =>
      match skip with
      | S k => split_str_from sep k piece s'
      | O =>
          if String.prefix sep s
          then piece :: split_str_from sep (String.length sep - 1) EmptyString s'
          else split_str_from sep 0 (piece ++ String c EmptyString) s'
      end
  end.

Definition split_str (sep : string) (s : string) : list string :=
  split_str_from sep 0 EmptyString s.

(** [s.rstrip(c)] for one character: [s] without its trailing [c]s. *)
Fixpoint rstrip (c : ascii) (s : string) : string :=
  match s with
  | EmptyString => EmptyString
  | String a s' =>
      match rstrip c s' with
      | EmptyString => if Ascii.eqb a c then EmptyString else String a EmptyString
      | rest => String a rest
      end
  end.

End Text.

(** ** The HTTP exchange of the two query-string facades *)

Module HTTP.

(** What [requests.get(url, auth=HTTPDigestAuth(user, password), params=...)]
    is called with. *)
Record Request : Type := {
  url : string;
  auth : string * string;
  params : list (string * value)
}.

(** The fields of the reply that the package reads. *)
Record Response : Type := {
  status_code : Z;
  text : string
}.

(** The world of an HTTP facade: the requests sent so far, oldest first, and
    what has been printed so far, one text for each call of [print]. *)
Record World : Type := {
  sent : list Request;
  printed : list string
}.

Definition boot : World := {| sent := []; printed := [] |}.

(** What the network does with a request, given the earlier ones: a reply, or
    an exception of the transport. *)
Definition Network : Type := list Request -> Request -> exn + Response.

(** [requests.get]: one exchange, recorded in the world. *)
Definition get (net : Network) (rq : Request) : IO World Response :=
  fun w =>
    let w' := {| sent := sent w ++ [rq]; printed := printed w |} in
    match net (sent w) rq with
    | inr response => (Return response, w')
    | inl e => (Raise e, w')
    end.

(** [print(a, b)]: the two texts separated by a space.  The text [b] may
    hold line breaks of its own; the one that [print] adds is not recorded. *)
Definition print2 (a b : string) : IO World unit :=
  fun w => (Return tt, {| sent := sent w; printed := printed w ++ [a ++ " " ++ b] |}).

End HTTP.
Import HTTP.

(** ** pyptz/sunapi_control.py *)

Module SUNAPI.

(** The instance attributes set by [__init__]. *)
Record SUNAPICamera : Type := {
  username : string;
  password : string;
  base_url : string
}.

Definition init (ip user pass : string) : SUNAPICamera :=
  {| username := user; password := pass; base_url := "http://" ++ ip ++ "/stw-cgi/" |}.

(** The payload of [absolute_move] and of both branches of [relative_move]. *)
Definition move_payload (msubmenu : string) (pan tilt zoom : option float)
  : list (string * value) :=
  [("msubmenu", VStr msubmenu); ("action", VStr "control");
   ("Pan", num pan); ("Tilt", num tilt); ("Zoom", num zoom);
   ("ZoomPulse", VNone); ("Channel", VNone)].

(** [relative_move], lines 107-119: the pan delta. *)
Definition clamp_pan (current_pan : float) (pan : option float) : option float :=
  match pan with
  | Some pan =>
      if (360 <? current_pan + pan)%float then Some (pan - 360)
      else if (current_pan + pan <? 0)%float then Some (360 + pan)
      else Some pan
  | None => None
  end.

(** [relative_move], lines 121-133: the tilt delta. *)
Definition clamp_tilt (current_tilt : float) (tilt : option float) : option float :=
  match tilt with
  | Some tilt =>
      if (90 <? current_tilt + tilt)%float then Some (90 - current_tilt)
      else if (current_tilt + tilt <? -20)%float then Some (-20 + abs current_tilt)
      else Some tilt
  | None => None
  end.

(** [relative_move], lines 135-147: the zoom delta. *)
Definition clamp_zoom (current_zoom : float) (zoom : option float) : option float :=
  match zoom with
  | Some zoom =>
      if (40 <? current_zoom + zoom)%float then Some (40 - current_zoom)
      else if (current_zoom + zoom <? 1)%float then Some (1 - current_zoom)
      else Some zoom
  | None => None
  end.


(** Lines 52-56 of [get_ptz_status]: a pan read near 360 or near 0 is 0. *)
Definition normalize_pan (current_pan : float) : float :=
  if (abs (360 - current_pan) <? 0.02)%float || (current_pan <? 0.02)%float
  then 0
  else current_pan.

(** The arguments of [get] in [__cmd]:
    [get(self.__url + cgi, auth=HTTPDigestAuth(user, password), params=payload)]. *)
Definition request (self : SUNAPICamera) (cgi : string)
  (payload : list (string * value)) : Request :=
  {| url := base_url self ++ cgi;
     auth := (username self, password self);
     params := payload |}.

Section Camera.

Variable net : Network.                    (* requests.get *)
Variable get_text : string -> string.      (* BeautifulSoup(text, "lxml").get_text() *)
Variable float : string -> option PrimFloat.float.   (* float(text); None: ValueError *)

(** [__cmd] *)
Definition cmd (self : SUNAPICamera) (cgi : string) (payload : list (string * value))
  : IO World Response :=
  (response <- get net (request self cgi payload) ;;
   (if negb (status_code response =? 200)%Z && negb (status_code response =? 204)%Z
    then
      print2 "%s" (get_text (text response)) ;;;
      (if (status_code response =? 401)%Z then exit 1 else ret tt)
    else ret tt) ;;;
   ret response)%io.

(** [float(text.split()[i].split('=')[1])] *)
Definition field (body : string) (i : nat) : IO World PrimFloat.float :=
  (token <- opt IndexError (nth_error (Text.split body) i) ;;
   piece <- opt IndexError (nth_error (Text.split_on "=" token) 1) ;;
   opt ValueError (float piece))%io.

Definition get_ptz_status (self : SUNAPICamera)
  : IO World (PrimFloat.float * PrimFloat.float * PrimFloat.float * PrimFloat.float) :=
  (response <- cmd self "ptzcontrol.cgi"
                 [("msubmenu", VStr "query"); ("action", VStr "view");
                  ("Query", VStr "Pan,Tilt,Zoom")] ;;
   current_pan <- field (text response) 0 ;;
   current_tilt <- field (text response) 1 ;;
   current_zoom <- field (text response) 2 ;;
   current_zoom_pulse <- field (text response) 3 ;;
   let current_pan := normalize_pan current_pan in
   ret (current_pan, current_tilt, current_zoom, current_zoom_pulse))%io.

Definition absolute_move (self : SUNAPICamera) (pan tilt zoom : option PrimFloat.float)
  : IO World Response :=
  cmd self "ptzcontrol.cgi" (move_payload "absolute" pan tilt zoom).

Definition relative_move (self : SUNAPICamera) (pan tilt zoom : option PrimFloat.float)
  : IO World Response :=
  (status <- get_ptz_status self ;;
   let '(current_pan, current_tilt, current_zoom, _) := status in
   let pan := clamp_pan current_pan pan in
   let tilt := clamp_tilt current_tilt tilt in
   let zoom := clamp_zoom current_zoom zoom in
   if negb (current_pan =? 0)%float
   then cmd self "ptzcontrol.cgi" (move_payload "relative" pan tilt zoom)
   else cmd self "ptzcontrol.cgi" (move_payload "absolute" pan tilt zoom))%io.

Definition continuous_move (self : SUNAPICamera) (normalized_speed : bool)
  (pan tilt zoom : option PrimFloat.float) (focus : option string) : IO World Response :=
  if negb (in_choices_or_None focus ["Near"; "Far"; "Stop"])
  then raise (Exception
    "Unauthorized command: Please enter a string from the choices: 'Near', 'Far', or 'Stop'")
  else cmd self "ptzcontrol.cgi"
         [("msubmenu", VStr "continuous"); ("action", VStr "control");
          ("NormalizedSpeed", VBool normalized_speed); ("Pan", num pan);
          ("Tilt", num tilt); ("Zoom", num zoom);
          ("Focus", match focus with Some f => VStr f | None => VNone end)].

Definition mode_value (mode : option string) : value :=
  match mode with
  | Some m => VStr m
  | None => VNone
  end.

Definition swing_control (self : SUNAPICamera) (channel : option PrimFloat.float)
  (mode : option string) : IO World Response :=
  if negb (in_choices_or_None mode ["Pan"; "Tilt"; "PanTilt"; "Stop"])
  then raise (Exception
    "Unauthorized command: Please enter a string from the choices: 'Pan', 'Tilt', 'PanTilt', 'Stop'")
  else cmd self "ptzcontrol.cgi"
         [("msubmenu", VStr "swing"); ("action", VStr "control");
          ("Channel", num channel); ("Mode", mode_value mode)].

Definition group_control (self : SUNAPICamera) (channel group : option PrimFloat.float)
  (mode : option string) : IO World Response :=
  if negb (in_choices_or_None mode ["Start"; "Stop"])
  then raise (Exception
    "Unauthorized command: Please enter a string from the choices: 'Start' or 'Stop'")
  else cmd self "ptzcontrol.cgi"
         [("msubmenu", VStr "group"); ("action", VStr "control");
          ("Channel", num channel); ("Group", num group);
          ("Mode", mode_value mode)].

Definition tour_control (self : SUNAPICamera) (channel tour : option PrimFloat.float)
  (mode : option string) : IO World Response :=
  if negb (in_choices_or_None mode ["Start"; "Stop"])
  then raise (Exception
    "Unauthorized command: Please enter a string from the choices: 'Start' or 'Stop'")
  else cmd self "ptzcontrol.cgi"
         [("msubmenu", VStr "tour"); ("action", VStr "control");
          ("Channel", num channel); ("Tour", num tour);
          ("Mode", mode_value mode)].

Definition trace_control (self : SUNAPICamera) (channel trace : option PrimFloat.float)
  (mode : option string) : IO World Response :=
  if negb (in_choices_or_None mode ["Start"; "Stop"])
  then raise (Exception
    "Unauthorized command: Please enter a string from the choices: 'Start' or 'Stop'")
  else cmd self "ptzcontrol.cgi"
         [("msubmenu", VStr "trace"); ("action", VStr "control");
          ("Channel", num channel); ("Trace", num trace);
          ("Mode", mode_value mode)].

(** The pass-through operations: one exchange each, the arguments sent as
    they are given. *)

Definition stop (self : SUNAPICamera) : IO World Response :=
  cmd self "ptzcontrol.cgi"
    [("msubmenu", VStr "stop"); ("action", VStr "control");
     ("OperationType", VStr "All")].

Definition area_zoom (self : SUNAPICamera)
  (x1 y1 x2 y2 tile_width tile_height : option PrimFloat.float) : IO World Response :=
  cmd self "ptzcontrol.cgi"
    [("msubmenu", VStr "areazoom"); ("action", VStr "control");
     ("X1", num x1); ("X2", num x2); ("Y1", num y1); ("Y2", num y2);
     ("TileWidth", num tile_width); ("TileHeight", num tile_height)].

Definition movement_control (self : SUNAPICamera) (direction : option string)
  (speed : option PrimFloat.float) : IO World Response :=
  cmd self "ptzcontrol.cgi"
    [("msubmenu", VStr "move"); ("action", VStr "control");
     ("Direction", mode_value direction); ("MoveSpeed", num speed)].

Definition go_to_home_position (self : SUNAPICamera) (channel : option PrimFloat.float)
  : IO World Response :=
  cmd self "ptzcontrol.cgi"
    [("msubmenu", VStr "home"); ("action", VStr "control");
     ("Channel", num channel)].

Definition go_to_preset_position (self : SUNAPICamera) (preset : option PrimFloat.float)
  (preset_name : option string) : IO World Response :=
  cmd self "ptzcontrol.cgi"
    [("msubmenu", VStr "preset"); ("action", VStr "control");
     ("Preset", num preset); ("PresetName", mode_value preset_name)].

Definition zoom_out (self : SUNAPICamera) : IO World Response :=
  cmd self "ptzcontrol.cgi"
    [("msubmenu", VStr "areazoom"); ("action", VStr "control");
     ("Type", VStr "1x")].

Definition aux_control (self : SUNAPICamera) (command : option string)
  : IO World Response :=
  cmd self "ptzcontrol.cgi"
    [("msubmenu", VStr "aux"); ("action", VStr "control");
     ("Command", mode_value command)].

Definition attributes_information (self : SUNAPICamera) : IO World Response :=
  cmd self "attributes.cgi" [].

Definition applications (self : SUNAPICamera) : IO World Response :=
  cmd self "opensdk.cgi" [("msubmenu", VStr "apps"); ("action", VStr "view")].

Variable Image : Type.                          (* PIL.Image *)
Variable Image_open : Response -> exn + Image.  (* Image.open(BytesIO(response.content)) *)

Definition snap_shot (self : SUNAPICamera) : IO World (option Image) :=
  (response <- cmd self "video.cgi"
                 [("msubmenu", VStr "snapshot"); ("action", VStr "view")] ;;
   if (status_code response =? 200)%Z
   then
     match Image_open response with
     | inr image => ret (Some image)
     | inl e => raise e
     end
   else ret None)%io.

End Camera.

End SUNAPI.

(** ** pyptz/vapix_control.py *)

Module VAPIX.

Record VAPIXCamera : Type := {
  username : string;
  password : string;
  base_url : string
}.

Definition init (ip user pass : string) : VAPIXCamera :=
  {| username := user; password := pass;
     base_url := "http://" ++ ip ++ "/axis-cgi/com/ptz.cgi" |}.

(** [d[k] = v]: a key that is present keeps its place, a new key goes last. *)
Fixpoint setitem (k : string) (v : value) (d : list (string * value))
  : list (string * value) :=
  match d with
  | [] => [(k, v)]
  | (k', v') :: d' =>
      if String.eqb k k' then (k, v) :: d' else (k', v') :: setitem k v d'
  end.

(** [results.update(dictionary)] *)
Definition update (results dictionary : list (string * value))
  : list (string * value) :=
  fold_left (fun acc kv => setitem (fst kv) (snd kv) acc) dictionary results.

(** [__merge]: the dictionaries merged from left to right. *)
Definition merge (args : list (list (string * value))) : list (string * value) :=
  fold_left update args [].

(** [str(n)] for an integer [n]. *)
Definition str_int (n : Z) : string := NilZero.string_of_int (Z.to_int n).

(** The arguments of [get] in [__cmd], at time [now]:
    [get(self.__url, auth=HTTPDigestAuth(user, password),
         params=__merge(payload, args))]. *)
Definition request (self : VAPIXCamera) (payload : list (string * value))
  (now : Z) : Request :=
  let args := [("camera", VInt 1); ("html", VStr "no");
               ("timestamp", VInt now)] in
  {| url := base_url self;
     auth := (username self, password self);
     params := merge [payload; args] |}.

Section Camera.

Variable net : Network.                    (* requests.get *)
Variable get_text : string -> string.      (* BeautifulSoup(text, "lxml").get_text() *)
Variable float : string -> option PrimFloat.float.   (* float(text); None: ValueError *)
Variable time_time : list Request -> Z.    (* int(time.time()) when the call is made *)

(** [__cmd] *)
Definition cmd (self : VAPIXCamera) (payload : list (string * value))
  : IO World Response :=
  (fun w =>
     (response <- get net (request self payload (time_time (sent w))) ;;
      (if negb (status_code response =? 200)%Z && negb (status_code response =? 204)%Z
       then
         print2 "%s" (get_text (text response)) ;;;
         (if (status_code response =? 401)%Z then exit 1 else ret tt)
       else ret tt) ;;;
      ret response)%io w).

(** [float(text.split()[i].split('=')[1])] *)
Definition field (body : string) (i : nat) : IO World PrimFloat.float :=
  (token <- opt IndexError (nth_error (Text.split body) i) ;;
   piece <- opt IndexError (nth_error (Text.split_on "=" token) 1) ;;
   opt ValueError (float piece))%io.

Definition get_ptz_status (self : VAPIXCamera)
  : IO World (PrimFloat.float * PrimFloat.float * PrimFloat.float) :=
  (response <- cmd self [("query", VStr "position")] ;;
   pan <- field (text response) 0 ;;
   tilt <- field (text response) 1 ;;
   zoom <- field (text response) 2 ;;
   ret (pan, tilt, zoom))%io.

Variable int : string -> option Z.         (* int(text); None: ValueError *)

Definition absolute_move (self : VAPIXCamera) (pan tilt zoom speed : option PrimFloat.float)
  : IO World Response :=
  cmd self [("pan", num pan); ("tilt", num tilt); ("zoom", num zoom);
            ("speed", num speed)].

Definition continuous_move (self : VAPIXCamera) (pan tilt : Z) (zoom : option PrimFloat.float)
  : IO World Response :=
  let pan_tilt := str_int pan ++ "," ++ str_int tilt in
  cmd self [("continuouspantiltmove", VStr pan_tilt);
            ("continuouszoommove", num zoom)].

Definition relative_move (self : VAPIXCamera) (pan tilt zoom speed : option PrimFloat.float)
  : IO World Response :=
  cmd self [("rpan", num pan); ("rtilt", num tilt); ("rzoom", num zoom);
            ("speed", num speed)].

Definition stop_move (self : VAPIXCamera) : IO World Response :=
  cmd self [("continuouspantiltmove", VStr "0,0"); ("continuouszoommove", VInt 0)].

Definition center_move (self : VAPIXCamera) (pos_x pos_y : Z) (speed : option PrimFloat.float)
  : IO World Response :=
  let pan_tilt := str_int pos_x ++ "," ++ str_int pos_y in
  cmd self [("center", VStr pan_tilt); ("speed", num speed)].

Definition area_zoom (self : VAPIXCamera) (pos_x pos_y zoom : Z) (speed : option PrimFloat.float)
  : IO World Response :=
  let x_y_zoom := str_int pos_x ++ "," ++ str_int pos_y ++ "," ++ str_int zoom in
  cmd self [("areazoom", VStr x_y_zoom); ("speed", num speed)].

Definition move (self : VAPIXCamera) (position : string) (speed : option PrimFloat.float)
  : IO World Response :=
  cmd self [("move", VStr position); ("speed", num speed)].

Definition go_home_position (self : VAPIXCamera) (speed : option PrimFloat.float)
  : IO World Response :=
  cmd self [("move", VStr "home"); ("speed", num speed)].

Definition go_to_server_preset_name (self : VAPIXCamera) (name : string)
  (speed : option PrimFloat.float) : IO World Response :=
  cmd self [("gotoserverpresetname", VStr name); ("speed", num speed)].

Definition go_to_server_preset_number (self : VAPIXCamera) (number speed : option PrimFloat.float)
  : IO World Response :=
  cmd self [("gotoserverpresetno", num number); ("speed", num speed)].

Definition go_to_device_preset (self : VAPIXCamera) (preset_pos speed : option PrimFloat.float)
  : IO World Response :=
  cmd self [("gotodevicepreset", num preset_pos); ("speed", num speed)].

Definition list_preset_device (self : VAPIXCamera) : IO World Response :=
  cmd self [("query", VStr "presetposcam")].

(** The body of the loop of [list_all_preset] for the line [resp_presets[i]]:
    [preset = line.split("=")], then the pair
    [(int(preset[0].split('presetposno')[1]), preset[1].rstrip('\r'))]. *)
Definition preset_entry (line : string) : IO World (Z * string) :=
  (let preset := Text.split_on "=" line in
   key <- opt IndexError (nth_error preset 0) ;;
   number <- opt IndexError (nth_error (Text.split_str "presetposno" key) 1) ;;
   n <- opt ValueError (int number) ;;
   name <- opt IndexError (nth_error preset 1) ;;
   ret (n, Text.rstrip "013" name))%io.

(** [for i in indices: presets.append(entry of resp_presets[i])] *)
Fixpoint preset_entries (resp_presets : list string) (indices : list nat)
  : IO World (list (Z * string)) :=
  match indices with
  | [] => ret []
  | i :: indices' =>
      (line <- opt IndexError (nth_error resp_presets i) ;;
       entry <- preset_entry line ;;
       presets <- preset_entries resp_presets indices' ;;
       ret (entry :: presets))%io
  end.

(** [range(start, stop)] *)
Definition range (start stop : nat) : list nat := seq start (stop - start).

Definition list_all_preset (self : VAPIXCamera) : IO World (list (Z * string)) :=
  (response <- cmd self [("query", VStr "presetposall")] ;;
   let resp_presets := Text.split_on "010" (get_text (text response)) in
   preset_entries resp_presets (range 1 (List.length resp_presets - 1)))%io.

Definition set_speed (self : VAPIXCamera) (speed : option PrimFloat.float) : IO World Response :=
  cmd self [("speed", num speed)].

Definition get_speed (self : VAPIXCamera) : IO World Z :=
  (resp <- cmd self [("query", VStr "speed")] ;;
   token <- opt IndexError (nth_error (Text.split (text resp)) 0) ;;
   piece <- opt IndexError (nth_error (Text.split_on "=" token) 1) ;;
   opt ValueError (int piece))%io.

Definition info_ptz_command (self : VAPIXCamera) : IO World string :=
  (response <- cmd self [("info", VStr "1")] ;;
   ret (text response))%io.

End Camera.

End VAPIX.

(** ** pyptz/onvif_control.py *)

Module ONVIF.

(** An entry of the list that [GetPresets] returns. *)
Record Preset : Type := {
  Name : option string;      (* the display name; it may be absent *)
  token : string
}.

(** The calls made on the PTZ service (the trace of a run). *)
Inductive Call : Type :=
| CGetPresets (ProfileToken : string)
| CSetPreset (ProfileToken : string) (PresetName : string)
| CRemovePreset (ProfileToken : string) (PresetToken : string)
| CGotoPreset (ProfileToken : string) (PresetToken : string).

(** The PTZ service created by [camera.create_ptz_service()], over a device
    state [D], with responses of type [Resp]; a call answers or faults. *)
Record PTZService (D Resp : Type) : Type := {
  GetPresets : D -> string -> (exn + list Preset) * D;
  SetPreset : D -> string -> string -> (exn + Resp) * D;
  RemovePreset : D -> string -> string -> (exn + Resp) * D;
  GotoPreset : D -> string -> string -> (exn + Resp) * D
}.
Arguments GetPresets {D Resp} _ _ _.
Arguments SetPreset {D Resp} _ _ _ _.
Arguments RemovePreset {D Resp} _ _ _ _.
Arguments GotoPreset {D Resp} _ _ _ _.

(** The world of the ONVIF facade: the device and the calls made so far. *)
Record World (D : Type) : Type := {
  device : D;
  calls : list Call
}.
Arguments device {D} _.
Arguments calls {D} _.

(** One call on the service, recorded in the world. *)
Definition invoke {D A} (c : Call) (op : D -> (exn + A) * D) : IO (World D) A :=
  fun w =>
    let '(answer, d') := op (device w) in
    let w' := {| device := d'; calls := calls w ++ [c] |} in
    match answer with
    | inr a => (Return a, w')
    | inl e => (Raise e, w')
    end.

(** The loop shared by the three name-addressed operations:
    [for i, _ in enumerate(presets):
         if str(presets[i].Name) == name: return found(presets[i])]
    followed by [otherwise] when the loop ends. *)
Fixpoint for_first_named {A : Type} (name : string) (presets : list Preset)
  (found : Preset -> A) (otherwise : A) : A :=
  match presets with
  | [] => otherwise
  | preset :: rest =>
      if String.eqb (str (Name preset)) name then found preset
      else for_first_named name rest found otherwise
  end.

(** [enumerate(l)] from index [i]. *)
Fixpoint enumerate_from {A : Type} (i : nat) (l : list A) : list (nat * A) :=
  match l with
  | [] => []
  | x :: l' => (i, x) :: enumerate_from (S i) l'
  end.

(** The instance attribute [__token], the first media profile. *)
Record ONVIFCamera : Type := { profile : string }.

(** What the idempotence of [set_preset] needs from the device, which the
    package cannot enforce: listing the presets twice in a row gives the
    same list, and a preset that [SetPreset] has created is listed under
    the name it was created with. *)
Record Retentive {D Resp : Type} (ptz : PTZService D Resp) : Prop := {
  listing_repeatable :
    forall d profile presets d',
      GetPresets ptz d profile = (inr presets, d') ->
      GetPresets ptz d' profile = (inr presets, d');
  created_listed :
    forall d profile name r d',
      SetPreset ptz d profile name = (inr r, d') ->
      exists presets,
        GetPresets ptz d' profile = (inr presets, d') /\
        exists preset, In preset presets /\ str (Name preset) = name
}.

Section Camera.

Variables D Resp : Type.
Variable ptz : PTZService D Resp.

Definition get_preset_complete (self : ONVIFCamera) : IO (World D) (list Preset) :=
  invoke (CGetPresets (profile self)) (fun d => GetPresets ptz d (profile self)).

Definition get_preset (self : ONVIFCamera) : IO (World D) (list (nat * option string)) :=
  (ptz_get_presets <- get_preset_complete self ;;
   ret (map (fun ip => (fst ip, Name (snd ip))) (enumerate_from 0 ptz_get_presets)))%io.

Definition set_preset (self : ONVIFCamera) (preset_name : string)
  : IO (World D) (option Resp) :=
  (presets <- get_preset_complete self ;;
   for_first_named preset_name presets
     (fun _ => ret None)
     (ptz_set_preset <- invoke (CSetPreset (profile self) preset_name)
                          (fun d => SetPreset ptz d (profile self) preset_name) ;;
      ret (Some ptz_set_preset)))%io.

Definition remove_preset (self : ONVIFCamera) (preset_name : string)
  : IO (World D) (option Resp) :=
  (presets <- get_preset_complete self ;;
   for_first_named preset_name presets
     (fun preset =>
        ptz_remove_preset <- invoke (CRemovePreset (profile self) (token preset))
                               (fun d => RemovePreset ptz d (profile self) (token preset)) ;;
        ret (Some ptz_remove_preset))
     (ret None))%io.

Definition go_to_preset (self : ONVIFCamera) (preset_position : string)
  : IO (World D) (option Resp) :=
  (presets <- get_preset_complete self ;;
   for_first_named preset_position presets
     (fun preset =>
        response <- invoke (CGotoPreset (profile self) (token preset))
                      (fun d => GotoPreset ptz d (profile self) (token preset)) ;;
        ret (Some response))
     (ret None))%io.

End Camera.

End ONVIF.

(** ** pyptz/onvif_control.py: the home position *)

Module ONVIFHome.

(** The calls that [set_home_position] and [go_home_position] make on the
    PTZ service. *)
Inductive Call : Type :=
| CSetHomePosition (ProfileToken : string)
| CGotoHomePosition (ProfileToken : string)
| CStop (ProfileToken : string).

(** The three operations of the PTZ service behind those calls. *)
Record HomeService (D Resp : Type) : Type := {
  SetHomePosition : D -> string -> (exn + Resp) * D;
  GotoHomePosition : D -> string -> (exn + Resp) * D;
  Stop : D -> string -> (exn + Resp) * D
}.
Arguments SetHomePosition {D Resp} _ _ _.
Arguments GotoHomePosition {D Resp} _ _ _.
Arguments Stop {D Resp} _ _ _.

Record World (D : Type) : Type := {
  device : D;
  calls : list Call
}.
Arguments device {D} _.
Arguments calls {D} _.

(** One call on the service, recorded in the world. *)
Definition invoke {D A} (c : Call) (op : D -> (exn + A) * D) : IO (World D) A :=
  fun w =>
    let '(answer, d') := op (device w) in
    let w' := {| device := d'; calls := calls w ++ [c] |} in
    match answer with
    | inr a => (Return a, w')
    | inl e => (Raise e, w')
    end.

Section Camera.

Variables D Resp : Type.
Variable ptz : HomeService D Resp.

Definition set_home_position (self : ONVIF.ONVIFCamera) : IO (World D) Resp :=
  (response <- invoke (CSetHomePosition (ONVIF.profile self))
                 (fun d => SetHomePosition ptz d (ONVIF.profile self)) ;;
   invoke (CStop (ONVIF.profile self))
     (fun d => Stop ptz d (ONVIF.profile self)) ;;;
   ret response)%io.

Definition go_home_position (self : ONVIF.ONVIFCamera) : IO (World D) Resp :=
  invoke (CGotoHomePosition (ONVIF.profile self))
    (fun d => GotoHomePosition ptz d (ONVIF.profile self)).

End Camera.

End ONVIFHome.

(** ** Concrete collaborators for the runs evaluated below *)

Module Demo.

(** A camera that answers every status query with [body] and every other
    request with an acknowledgement, always with status 200. *)
Definition reporting (body : string) : Network :=
  fun _ rq =>
    match lookup "msubmenu" (params rq), lookup "query" (params rq) with
    | Some (VStr "query"), _ | _, Some (VStr "position") =>
        inr {| status_code := 200; text := body |}
    | _, _ => inr {| status_code := 200; text := "OK" |}
    end.

(** A server that answers every request with the given status and body. *)
Definition answering (code : Z) (body : string) : Network :=
  fun _ _ => inr {| status_code := code; text := body |}.

(** The text extraction on a reply that holds no markup and no white space
    at its ends, taken as the identity.  It is used for the concrete runs
    only; the theorems hold for every [get_text]. *)
Definition plain (s : string) : string := s.

Definition sunapi : SUNAPI.SUNAPICamera := SUNAPI.init "192.168.0.10" "admin" "secret".

Definition vapix : VAPIX.VAPIXCamera := VAPIX.init "192.168.0.11" "root" "secret".

Definition clock : list Request -> Z := fun _ => 1700000000%Z.

(** The reply to the status query in the scenario of the specification:
    pan 358, tilt 80, zoom 35. *)
Definition scenario : string :=
  "Pan=358.00
Tilt=80.00
Zoom=35.00
ZoomPulse=1200
".


(** A reply with the pan read just below 360. *)
Definition near_360 : string :=
  "Pan=359.99
Tilt=0.00
Zoom=1.00
ZoomPulse=0
".

(** A reply with the camera at pan 100. *)
Definition at_pan_100 : string :=
  "Pan=100.00
Tilt=0.00
Zoom=1.00
ZoomPulse=0
".

(** A reply with the camera at tilt 7.99. *)
Definition at_tilt_7_99 : string :=
  "Pan=10.00
Tilt=7.99
Zoom=1.00
ZoomPulse=0
".

(** A reply with a tilt that is above 0 by less than the spacing of the
    floats around 20. *)
Definition barely_tilted : string :=
  "Pan=10.00
Tilt=0.000000000000001
Zoom=1.00
ZoomPulse=0
".

(** The position query of the VAPIX facade at the time of [clock], and the
    world once it is sent from a fresh start. *)
Definition position_query : Request :=
  VAPIX.request vapix [("query", VStr "position")] (clock []).

Definition positioned : World := {| sent := [position_query]; printed := [] |}.

(** The status query of [get_ptz_status], and the world once it is sent from
    a fresh start. *)
Definition status_query : Request :=
  SUNAPI.request sunapi "ptzcontrol.cgi"
    [("msubmenu", VStr "query"); ("action", VStr "view");
     ("Query", VStr "Pan,Tilt,Zoom")].

Definition queried : World := {| sent := [status_query]; printed := [] |}.

(** An ONVIF device that keeps its presets in a list: [SetPreset] adds an
    entry at the end, [RemovePreset] drops the entries with the token,
    [GotoPreset] changes nothing; the response is a line of text. *)
Definition device : ONVIF.PTZService (list ONVIF.Preset) string :=
  {| ONVIF.GetPresets := fun d _ => (inr d, d);
     ONVIF.SetPreset := fun d _ name =>
       (inr ("token:" ++ name),
        (d ++ [{| ONVIF.Name := Some name; ONVIF.token := "token:" ++ name |}])%list);
     ONVIF.RemovePreset := fun d _ tok =>
       (inr ("removed " ++ tok),
        filter (fun p => negb (String.eqb (ONVIF.token p) tok)) d);
     ONVIF.GotoPreset := fun d _ tok => (inr ("at " ++ tok), d) |}.

Definition onvif : ONVIF.ONVIFCamera := {| ONVIF.profile := "Profile_1" |}.

(** A device on which two presets carry the same name. *)
Definition presets : list ONVIF.Preset :=
  [{| ONVIF.Name := Some "Yard"; ONVIF.token := "1" |};
   {| ONVIF.Name := Some "Door"; ONVIF.token := "2" |};
   {| ONVIF.Name := None; ONVIF.token := "3" |};
   {| ONVIF.Name := Some "Door"; ONVIF.token := "4" |}].

Definition installed : ONVIF.World (list ONVIF.Preset) :=
  {| ONVIF.device := presets; ONVIF.calls := [] |}.

(** Carriage return and line feed, the line ends of the VAPIX replies. *)
Definition crlf : string := String "013" (String "010" EmptyString).

(** A reply to the preset query: a heading, two presets, the second with an
    equals sign in its name. *)
Definition preset_listing : string :=
  "Preset Positions for camera 1" ++ crlf
  ++ "presetposno1=Home" ++ crlf
  ++ "presetposno12=Back=Door" ++ crlf.


(** A PTZ service that stores the home position but cannot stop: the device
    state counts the stored positions. *)
Definition restless : ONVIFHome.HomeService nat string :=
  {| ONVIFHome.SetHomePosition := fun d _ => (inr "home stored", S d);
     ONVIFHome.GotoHomePosition := fun d _ => (inr "moving home", d);
     ONVIFHome.Stop := fun d _ => (inl (Fault "cannot stop"), d) |}.

End Demo.

(** * Properties *)

(** ** Numbers *)

(** The comparisons of the kernel's floats, on their decoded form. *)
Lemma SFcompare_antisym (x y : spec_float) :
  SFcompare y x = option_map CompOpp (SFcompare x y).
Proof.
  assert (Hm : forall p q, Pos.compare_cont Eq q p = CompOpp (Pos.compare_cont Eq p q))
    by (intros p q; now rewrite Pos.compare_cont_antisym).
  destruct x as [sx | sx | | sx mx ex], y as [sy | sy | | sy my ey];
    try destruct sx; try destruct sy; try reflexivity; cbn [SFcompare option_map];
    rewrite (Z.compare_antisym ex ey), (Hm mx my);
    destruct (ex ?= ey)%Z; cbn [CompOpp];
    try rewrite CompOpp_involutive; reflexivity.
Qed.

Lemma SFcompare_number (x y : spec_float) :
  SFeqb x x = true -> SFeqb y y = true -> SFcompare x y <> None.
Proof.
  destruct x as [sx | sx | | sx mx ex], y as [sy | sy | | sy my ey];
    cbn; try discriminate; intros; discriminate.
Qed.

(** Among numbers, [x < y] fails exactly when [y <= x] holds. *)
Lemma ltb_false_leb (x y : float) :
  is_number x -> is_number y -> (x <? y)%float = false -> (y <=? x)%float = true.
Proof.
  unfold is_number. rewrite ltb_spec, leb_spec, !eqb_spec.
  intros Hx Hy. pose proof (SFcompare_number _ _ Hx Hy) as Hc.
  unfold SFltb, SFleb. rewrite (SFcompare_antisym (Prim2SF x) (Prim2SF y)).
  destruct (SFcompare (Prim2SF x) (Prim2SF y)) as [[ | | ] |]; cbn; congruence.
Qed.

(** [x < y] and [y <= x] never hold together. *)
Lemma ltb_true_leb (x y : float) :
  (x <? y)%float = true -> (y <=? x)%float = false.
Proof.
  rewrite ltb_spec, leb_spec.
  unfold SFltb, SFleb. rewrite (SFcompare_antisym (Prim2SF x) (Prim2SF y)).
  destruct (SFcompare (Prim2SF x) (Prim2SF y)) as [[ | | ] |]; cbn; congruence.
Qed.

(** The decoded forms of the constants of the code. *)
Lemma Prim2SF_0_02 : Prim2SF 0.02 = S754_finite false 5764607523034235 (-58).
Proof. vm_compute. reflexivity. Qed.

Lemma Prim2SF_0 : Prim2SF 0 = S754_zero false.
Proof. vm_compute. reflexivity. Qed.


(** [abs(x) < 0.02] implies [x < 0.02]: a reading within 0.02 of 0 passes
    the second test of [get_ptz_status]. *)
Lemma ltb_abs (x : float) :
  (abs x <? 0.02)%float = true -> (x <? 0.02)%float = true.
Proof.
  rewrite !ltb_spec, abs_spec, Prim2SF_0_02.
  destruct (Prim2SF x) as [s | s | | s m e]; try destruct s; simpl; auto.
Qed.


(** ** The monad *)

Lemma bind_Return {W A B} (m : IO W A) (k : A -> IO W B) w a w' :
  m w = (Return a, w') -> bind m k w = k a w'.
Proof. unfold bind. now intros ->. Qed.

Lemma bind_Raise {W A B} (m : IO W A) (k : A -> IO W B) w e w' :
  m w = (Raise e, w') -> bind m k w = (Raise e, w').
Proof. unfold bind. now intros ->. Qed.

Lemma bind_Exit {W A B} (m : IO W A) (k : A -> IO W B) w c w' :
  m w = (Exit c, w') -> bind m k w = (Exit c, w').
Proof. unfold bind. now intros ->. Qed.

(** ** Text primitives on the replies of the cameras *)

Example split_reply :
  Text.split Demo.scenario
  = ["Pan=358.00"; "Tilt=80.00"; "Zoom=35.00"; "ZoomPulse=1200"].
Proof. reflexivity. Qed.

Example split_on_equals :
  Text.split_on "=" "Pan=358.00" = ["Pan"; "358.00"] /\
  Text.split_on "=" "Pan" = ["Pan"] /\
  Text.split_on "=" "a==b" = ["a"; ""; "b"].
Proof. repeat split. Qed.

Example decimal_literals :
  Text.decimal "359.99" = Some 359.99 /\
  Text.decimal "-20" = Some (-20) /\
  Text.decimal "1e3" = Some 1000 /\
  Text.decimal "nan" = Some nan /\
  Text.decimal "-Infinity" = Some neg_infinity /\
  Text.decimal "." = None.
Proof. repeat split. Qed.

(** [s.split(sep)] never gives the empty list, so index 0 always exists. *)
Lemma split_on_nonempty (sep : ascii) (s : string) : Text.split_on sep s <> [].
Proof.
  destruct s as [| c s]; cbn; [discriminate |].
  destruct (Ascii.eqb c sep); [discriminate |].
  destruct (Text.split_on sep s); discriminate.
Qed.

(** ** SUNAPI: the transport exchange *)

Section SUNAPI_exchange.

Variable net : Network.
Variable get_text : string -> string.
Variable self : SUNAPI.SUNAPICamera.

(** [__cmd] sends exactly one request, however it ends. *)
Lemma sunapi_cmd_sent cgi payload w :
  sent (snd (SUNAPI.cmd net get_text self cgi payload w))
  = (sent w ++ [SUNAPI.request self cgi payload])%list.
Proof.
  unfold SUNAPI.cmd, bind, get.
  destruct (net (sent w) _) as [e | response]; cbn; [reflexivity |].
  destruct (negb (status_code response =? 200)%Z && negb (status_code response =? 204)%Z);
    cbn; [| reflexivity].
  destruct (status_code response =? 401)%Z; reflexivity.
Qed.

End SUNAPI_exchange.

(** ** The transport exchange of both query-string facades *)

(** Case analysis on the three status tests of [__cmd]. *)
Ltac status_cases response :=
  destruct (Z.eqb_spec (status_code response) 200%Z);
  destruct (Z.eqb_spec (status_code response) 204%Z);
  destruct (Z.eqb_spec (status_code response) 401%Z);
  cbn; try reflexivity; try lia.

(** C9.  In [__cmd] of the SUNAPI and of the VAPIX facade, when the network
    answers the request with [response]: with status 200 or 204 the response
    is returned and nothing is printed; with any other status the decoded
    body is printed, and then the response is returned, except for status
    401, where the process exits with code 1 and the caller gets nothing. *)
Theorem cmd_status_classification
  (net : Network) (get_text : string -> string) (time_time : list Request -> Z)
  (s : SUNAPI.SUNAPICamera) (v : VAPIX.VAPIXCamera)
  (cgi : string) (payload : list (string * value)) (w : World)
  (rs rv : Response) :
  net (sent w) (SUNAPI.request s cgi payload) = inr rs ->
  net (sent w) (VAPIX.request v payload (time_time (sent w))) = inr rv ->
  let quiet rq := {| sent := sent w ++ [rq]; printed := printed w |} in
  let reported rq r :=
    {| sent := sent w ++ [rq];
       printed := printed w ++ ["%s " ++ get_text (text r)] |} in
  let qs := SUNAPI.request s cgi payload in
  let qv := VAPIX.request v payload (time_time (sent w)) in
  ((status_code rs = 200%Z \/ status_code rs = 204%Z ->
    SUNAPI.cmd net get_text s cgi payload w = (Return rs, quiet qs)) /\
   (status_code rs <> 200%Z -> status_code rs <> 204%Z -> status_code rs <> 401%Z ->
    SUNAPI.cmd net get_text s cgi payload w = (Return rs, reported qs rs)) /\
   (status_code rs = 401%Z ->
    SUNAPI.cmd net get_text s cgi payload w = (Exit 1, reported qs rs)))
  /\
  ((status_code rv = 200%Z \/ status_code rv = 204%Z ->
    VAPIX.cmd net get_text time_time v payload w = (Return rv, quiet qv)) /\
   (status_code rv <> 200%Z -> status_code rv <> 204%Z -> status_code rv <> 401%Z ->
    VAPIX.cmd net get_text time_time v payload w = (Return rv, reported qv rv)) /\
   (status_code rv = 401%Z ->
    VAPIX.cmd net get_text time_time v payload w = (Exit 1, reported qv rv))).
Proof.
  intros Hs Hv quiet reported qs qv. subst quiet reported qs qv.
  split.
  - unfold SUNAPI.cmd, bind, get. rewrite Hs. cbn.
    repeat split; intros; status_cases rs.
  - unfold VAPIX.cmd, bind, get. rewrite Hv. cbn.
    repeat split; intros; status_cases rv.
Qed.

Lemma cmd_status_classification_witness :
  SUNAPI.cmd (Demo.answering 401 "Unauthorized") Demo.plain Demo.sunapi
    "ptzcontrol.cgi" [] boot
  = (Exit 1,
     {| sent := [SUNAPI.request Demo.sunapi "ptzcontrol.cgi" []];
        printed := ["%s Unauthorized"] |}) /\
  VAPIX.cmd (Demo.answering 401 "Unauthorized") Demo.plain Demo.clock Demo.vapix
    [] boot
  = (Exit 1,
     {| sent := [VAPIX.request Demo.vapix [] (Demo.clock [])];
        printed := ["%s Unauthorized"] |}).
Proof.
  destruct (cmd_status_classification (Demo.answering 401 "Unauthorized")
              Demo.plain Demo.clock Demo.sunapi Demo.vapix "ptzcontrol.cgi" []
              boot
              {| status_code := 401; text := "Unauthorized" |}
              {| status_code := 401; text := "Unauthorized" |}
              eq_refl eq_refl)
    as [(_ & _ & Hs) (_ & _ & Hv)].
  split; [apply Hs | apply Hv]; reflexivity.
Defined.


(** ** SUNAPI: relative moves *)

Section SUNAPI_relative_move.

Variable net : Network.
Variable get_text : string -> string.
Variable float : string -> option PrimFloat.float.
Variable self : SUNAPI.SUNAPICamera.

(** Once the status query has returned, [relative_move] is the one command
    built from the clamped deltas. *)
Lemma relative_move_run pan tilt zoom w w1 p t z zp :
  SUNAPI.get_ptz_status net get_text float self w = (Return (p, t, z, zp), w1) ->
  SUNAPI.relative_move net get_text float self pan tilt zoom w
  = SUNAPI.cmd net get_text self "ptzcontrol.cgi"
      (SUNAPI.move_payload (if (p =? 0)%float then "absolute" else "relative")
         (SUNAPI.clamp_pan p pan) (SUNAPI.clamp_tilt t tilt)
         (SUNAPI.clamp_zoom z zoom)) w1.
Proof.
  intros H. unfold SUNAPI.relative_move.
  rewrite (bind_Return _ _ _ _ _ H).
  destruct (p =? 0)%float; reflexivity.
Qed.

(** When the status query does not return, neither does [relative_move],
    and no move is sent. *)
Lemma relative_move_no_status pan tilt zoom w :
  (forall e w1, SUNAPI.get_ptz_status net get_text float self w = (Raise e, w1) ->
     SUNAPI.relative_move net get_text float self pan tilt zoom w = (Raise e, w1)) /\
  (forall c w1, SUNAPI.get_ptz_status net get_text float self w = (Exit c, w1) ->
     SUNAPI.relative_move net get_text float self pan tilt zoom w = (Exit c, w1)).
Proof.
  split; intros ? ? H; unfold SUNAPI.relative_move.
  - now rewrite (bind_Raise _ _ _ _ _ H).
  - now rewrite (bind_Exit _ _ _ _ _ H).
Qed.

End SUNAPI_relative_move.





(** C1 (as amended).  After the status query has returned the normalized
    position, [relative_move] sends exactly one further request, the move
    built from the clamped deltas: a "relative" command when the current pan
    is not 0 ([current_pan != 0]), an "absolute" command, with the same
    clamped deltas as its parameters, when the current pan is 0. *)
Theorem relative_move_dispatch
  (net : Network) (get_text : string -> string)
  (float : string -> option PrimFloat.float)
  (self : SUNAPI.SUNAPICamera) (pan tilt zoom : option PrimFloat.float)
  (w w1 : World) (p t z zp : PrimFloat.float) :
  SUNAPI.get_ptz_status net get_text float self w = (Return (p, t, z, zp), w1) ->
  exists msubmenu : string,
    let payload :=
      SUNAPI.move_payload msubmenu (SUNAPI.clamp_pan p pan)
        (SUNAPI.clamp_tilt t tilt) (SUNAPI.clamp_zoom z zoom) in
    SUNAPI.relative_move net get_text float self pan tilt zoom w
    = SUNAPI.cmd net get_text self "ptzcontrol.cgi" payload w1 /\
    sent (snd (SUNAPI.relative_move net get_text float self pan tilt zoom w))
    = (sent w1 ++ [SUNAPI.request self "ptzcontrol.cgi" payload])%list /\
    lookup "msubmenu" payload = Some (VStr msubmenu) /\
    ((p =? 0)%float = false -> msubmenu = "relative") /\
    ((p =? 0)%float = true -> msubmenu = "absolute").
Proof.
  intros H.
  exists (if (p =? 0)%float then "absolute" else "relative"). cbv zeta.
  rewrite relative_move_run with (1 := H).
  split; [reflexivity |].
  split; [apply sunapi_cmd_sent |].
  split; [reflexivity |].
  destruct (p =? 0)%float; split; intros; congruence.
Qed.

Lemma relative_move_dispatch_witness :
  exists msubmenu : string,
    SUNAPI.relative_move (Demo.reporting Demo.scenario) Demo.plain Text.decimal
      Demo.sunapi (Some 5) (Some 15) (Some 10) boot
    = SUNAPI.cmd (Demo.reporting Demo.scenario) Demo.plain Demo.sunapi
        "ptzcontrol.cgi"
        (SUNAPI.move_payload msubmenu (Some (-355)) (Some 10) (Some 5))
        Demo.queried /\
    msubmenu = "relative".
Proof.
  destruct (relative_move_dispatch (Demo.reporting Demo.scenario) Demo.plain
              Text.decimal Demo.sunapi (Some 5) (Some 15) (Some 10)
              boot Demo.queried 358 80 35 1200 eq_refl)
    as (m & Hrun & _ & _ & Hrel & _).
  exists m. split; [exact Hrun | apply Hrel; reflexivity].
Defined.

(** C1, the claim as stated fails: in the scenario of the specification the
    queried pan is 358, which is not 0, and the move goes out as a
    "relative" command, not as an "absolute" one. *)
Lemma dispatch_claim_counterexample :
  SUNAPI.get_ptz_status (Demo.reporting Demo.scenario) Demo.plain Text.decimal
    Demo.sunapi boot
  = (Return (358, 80, 35, 1200), Demo.queried) /\
  (358 =? 0)%float = false /\
  sent (snd (SUNAPI.relative_move (Demo.reporting Demo.scenario) Demo.plain
               Text.decimal Demo.sunapi (Some 5) (Some 15) (Some 10) boot))
  = [Demo.status_query;
     SUNAPI.request Demo.sunapi "ptzcontrol.cgi"
       [("msubmenu", VStr "relative"); ("action", VStr "control");
        ("Pan", VNum (-355)); ("Tilt", VNum 10); ("Zoom", VNum 5);
        ("ZoomPulse", VNone); ("Channel", VNone)]] /\
  VStr "relative" <> VStr "absolute".
Proof.
  split; [reflexivity |].
  split; [reflexivity |].
  split; [reflexivity | discriminate].
Qed.

(** The other branch: a pan read as 359.99 is normalized to 0, and the move
    goes out as an "absolute" command with the deltas as its parameters. *)
Example dispatch_at_pan_zero :
  sent (snd (SUNAPI.relative_move (Demo.reporting Demo.near_360) Demo.plain
               Text.decimal Demo.sunapi (Some 5) (Some 15) (Some 10) boot))
  = [Demo.status_query;
     SUNAPI.request Demo.sunapi "ptzcontrol.cgi"
       [("msubmenu", VStr "absolute"); ("action", VStr "control");
        ("Pan", VNum 5); ("Tilt", VNum 15); ("Zoom", VNum 10);
        ("ZoomPulse", VNone); ("Channel", VNone)]].
Proof. reflexivity. Qed.




(** The same block leaves a projection of exactly 360 alone: from pan 10 a
    delta of 350 is sent unchanged. *)
Example pan_projection_at_360 :
  SUNAPI.clamp_pan 10 (Some 350) = Some 350 /\ (10 + 350 = 360)%float.
Proof. split; reflexivity. Qed.



(** C4, the claim as stated fails where the sum is rounded: with the camera
    at tilt 7.99, in [-20, 90], the real numbers behind 7.99 and the delta
    -27.990000000000002 add up to less than -20, but their binary64 sum is
    -20, which is not below -20: the delta is sent as it is, and it is not
    [-20 + abs(t)]. *)
Lemma tilt_clamping_counterexample :
  SUNAPI.get_ptz_status (Demo.reporting Demo.at_tilt_7_99) Demo.plain Text.decimal
    Demo.sunapi boot
  = (Return (10, 7.99, 1, 0), Demo.queried) /\
  ((-20 <=? 7.99)%float = true /\ (7.99 <=? 90)%float = true) /\
  (exists qt qd : Q,
     exact 7.99 = Some qt /\ exact (-27.990000000000002) = Some qd /\
     (qt + qd < -20)%Q) /\
  (7.99 + -27.990000000000002 = -20)%float /\
  sent (snd (SUNAPI.relative_move (Demo.reporting Demo.at_tilt_7_99) Demo.plain
               Text.decimal Demo.sunapi None (Some (-27.990000000000002)%float)
               None boot))
  = [Demo.status_query;
     SUNAPI.request Demo.sunapi "ptzcontrol.cgi"
       [("msubmenu", VStr "relative"); ("action", VStr "control");
        ("Pan", VNone); ("Tilt", VNum (-27.990000000000002)); ("Zoom", VNone);
        ("ZoomPulse", VNone); ("Channel", VNone)]] /\
  (-27.990000000000002 =? -20 + abs 7.99)%float = false.
Proof.
  split; [reflexivity |].
  split; [split; reflexivity |].
  split.
  { do 2 eexists. split; [vm_compute; reflexivity |].
    split; [vm_compute; reflexivity |]. reflexivity. }
  split; [reflexivity |].
  split; reflexivity.
Qed.



(** C5, the claim as stated fails: with the camera at pan 100 the pan delta
    -100.00000000000001 projects below 0, and the delta sent is the float
    [360 + d], which is 260: the sum is rounded.  As real numbers 260 and
    [d] differ by 360 + 2^-46, which is no whole number of turns, and 260
    is none of [d], [d - 360] and [d + 360]. *)
Lemma pan_circular_counterexample :
  SUNAPI.get_ptz_status (Demo.reporting Demo.at_pan_100) Demo.plain Text.decimal
    Demo.sunapi boot
  = (Return (100, 0, 1, 0), Demo.queried) /\
  sent (snd (SUNAPI.relative_move (Demo.reporting Demo.at_pan_100) Demo.plain
               Text.decimal Demo.sunapi (Some (-100.00000000000001)%float)
               None None boot))
  = [Demo.status_query;
     SUNAPI.request Demo.sunapi "ptzcontrol.cgi"
       [("msubmenu", VStr "relative"); ("action", VStr "control");
        ("Pan", VNum 260); ("Tilt", VNone); ("Zoom", VNone);
        ("ZoomPulse", VNone); ("Channel", VNone)]] /\
  exists q q' : Q,
    exact (-100.00000000000001) = Some q /\
    exact 260 = Some q' /\
    (q' - q == 360 + (1 # 70368744177664))%Q /\
    (forall k : Z, ~ (q' == q + 360 * inject_Z k)%Q) /\
    (forall k : Z, ~ (100 + q' == (100 + q) + 360 * inject_Z k)%Q).
Proof.
  split; [reflexivity |].
  split; [reflexivity |].
  exists (-7036874417766401 # 70368744177664)%Q, (4573968371548160 # 17592186044416)%Q.
  split; [vm_compute; reflexivity |].
  split; [vm_compute; reflexivity |].
  split; [vm_compute; reflexivity |].
  split; intros k; unfold Qeq, Qplus, Qmult, inject_Z; cbv [Qnum Qden];
    rewrite ?Pos2Z.inj_mul; lia.
Qed.





(** C10, the claim as stated fails: with the camera at tilt 1e-15, which is
    in [0, 90] and not 0, the tilt delta -30 projects below -20 and the
    delta sent is [-20 + t], which is -20: the sum is rounded.  The
    projected tilt [t + d'] is then the lower bound -20 itself, although
    [t] is not 0, and it is not [2t - 20]. *)
Lemma tilt_floor_counterexample :
  SUNAPI.get_ptz_status (Demo.reporting Demo.barely_tilted) Demo.plain
    Text.decimal Demo.sunapi boot
  = (Return (10, 1e-15, 1, 0), Demo.queried) /\
  ((0 <=? 1e-15)%float = true /\ (1e-15 <=? 90)%float = true /\
   (1e-15 + -30 <? -20)%float = true) /\
  sent (snd (SUNAPI.relative_move (Demo.reporting Demo.barely_tilted) Demo.plain
               Text.decimal Demo.sunapi None (Some (-30)%float) None boot))
  = [Demo.status_query;
     SUNAPI.request Demo.sunapi "ptzcontrol.cgi"
       [("msubmenu", VStr "relative"); ("action", VStr "control");
        ("Pan", VNone); ("Tilt", VNum (-20)); ("Zoom", VNone);
        ("ZoomPulse", VNone); ("Channel", VNone)]] /\
  (1e-15 + -20 = -20)%float /\
  (1e-15 =? 0)%float = false /\
  (1e-15 + -20 =? 2 * 1e-15 - 20)%float = false.
Proof.
  split; [reflexivity |].
  split; [repeat split |].
  split; [reflexivity |].
  split; [reflexivity |].
  split; reflexivity.
Qed.

(** ** The status decoders *)

(** C3 (as amended).  The SUNAPI status decoder normalizes the pan: when
    the pan parsed from the reply is within 0.02 of 360 or within 0.02 of 0,
    the pan returned to the caller is exactly 0 (and otherwise it is 0 or
    the parsed pan itself).  The VAPIX status decoder has no such step: it
    returns the parsed pan as it is. *)
Theorem get_ptz_status_pan
  (net : Network) (get_text : string -> string)
  (float : string -> option PrimFloat.float)
  (time_time : list Request -> Z)
  (s : SUNAPI.SUNAPICamera) (v : VAPIX.VAPIXCamera)
  (w ws wv : World) (rs rv : Response)
  (pan tilt zoom zoom_pulse vpan vtilt vzoom : PrimFloat.float) :
  SUNAPI.cmd net get_text s "ptzcontrol.cgi"
    [("msubmenu", VStr "query"); ("action", VStr "view");
     ("Query", VStr "Pan,Tilt,Zoom")] w = (Return rs, ws) ->
  SUNAPI.field float (text rs) 0 ws = (Return pan, ws) ->
  SUNAPI.field float (text rs) 1 ws = (Return tilt, ws) ->
  SUNAPI.field float (text rs) 2 ws = (Return zoom, ws) ->
  SUNAPI.field float (text rs) 3 ws = (Return zoom_pulse, ws) ->
  VAPIX.cmd net get_text time_time v [("query", VStr "position")] w
  = (Return rv, wv) ->
  VAPIX.field float (text rv) 0 wv = (Return vpan, wv) ->
  VAPIX.field float (text rv) 1 wv = (Return vtilt, wv) ->
  VAPIX.field float (text rv) 2 wv = (Return vzoom, wv) ->
  (exists pan' : PrimFloat.float,
     SUNAPI.get_ptz_status net get_text float s w
     = (Return (pan', tilt, zoom, zoom_pulse), ws) /\
     ((abs (360 - pan) <? 0.02)%float = true \/ (abs pan <? 0.02)%float = true ->
      pan' = 0%float) /\
     (pan' = 0%float \/ pan' = pan)) /\
  VAPIX.get_ptz_status net get_text float time_time v w
  = (Return (vpan, vtilt, vzoom), wv).
Proof.
  intros Hs H0 H1 H2 H3 Hv V0 V1 V2.
  split.
  - exists (SUNAPI.normalize_pan pan).
    split.
    + unfold SUNAPI.get_ptz_status.
      rewrite (bind_Return _ _ _ _ _ Hs).
      rewrite (bind_Return _ _ _ _ _ H0).
      rewrite (bind_Return _ _ _ _ _ H1).
      rewrite (bind_Return _ _ _ _ _ H2).
      rewrite (bind_Return _ _ _ _ _ H3).
      reflexivity.
    + unfold SUNAPI.normalize_pan.
      destruct (abs (360 - pan) <? 0.02)%float eqn:E360; cbn [orb].
      * split; auto.
      * destruct (pan <? 0.02)%float eqn:E0; [split; auto |].
        split; [| auto].
        intros [N | N]; [discriminate |].
        apply ltb_abs in N. congruence.
  - unfold VAPIX.get_ptz_status.
    rewrite (bind_Return _ _ _ _ _ Hv).
    rewrite (bind_Return _ _ _ _ _ V0).
    rewrite (bind_Return _ _ _ _ _ V1).
    rewrite (bind_Return _ _ _ _ _ V2).
    reflexivity.
Qed.

Lemma get_ptz_status_pan_witness :
  SUNAPI.get_ptz_status (Demo.reporting Demo.near_360) Demo.plain Text.decimal
    Demo.sunapi boot
  = (Return (0, 0, 1, 0), Demo.queried) /\
  VAPIX.get_ptz_status (Demo.reporting Demo.near_360) Demo.plain Text.decimal
    Demo.clock Demo.vapix boot
  = (Return (359.99, 0, 1), Demo.positioned).
Proof.
  destruct (get_ptz_status_pan (Demo.reporting Demo.near_360) Demo.plain
              Text.decimal Demo.clock Demo.sunapi Demo.vapix
              boot Demo.queried Demo.positioned
              {| status_code := 200; text := Demo.near_360 |}
              {| status_code := 200; text := Demo.near_360 |}
              359.99 0 1 0 359.99 0 1
              eq_refl eq_refl eq_refl eq_refl eq_refl
              eq_refl eq_refl eq_refl eq_refl)
    as [(pan' & Hrun & Hnear & _) Hv].
  split; [| exact Hv].
  rewrite Hrun. rewrite Hnear; [reflexivity |].
  left. reflexivity.
Defined.

(** C3, the claim as stated fails for the VAPIX decoder, which the claim
    covers as well: a reply that reads pan=359.99 decodes to 359.99, within
    0.02 of 360 and not 0. *)
Lemma vapix_status_counterexample :
  VAPIX.get_ptz_status (Demo.reporting Demo.near_360) Demo.plain Text.decimal
    Demo.clock Demo.vapix boot
  = (Return (359.99, 0, 1), Demo.positioned) /\
  (abs (360 - 359.99) <? 0.02)%float = true /\
  (359.99 =? 0)%float = false.
Proof.
  split; [reflexivity |]. split; reflexivity.
Qed.

(** A reply that is no number: [float] reads [nan], no test of the decoder
    holds of it, and it is returned as the pan. *)
Example get_ptz_status_nan :
  SUNAPI.normalize_pan nan = nan /\
  SUNAPI.normalize_pan 359.98 = 0%float /\
  SUNAPI.normalize_pan 0.02 = 0.02%float.
Proof. repeat split. Qed.
(** ** SUNAPI: enumerated arguments *)

Lemma in_choices_In (s : string) (choices : list string) :
  in_choices_or_None (Some s) choices = true <-> In s choices.
Proof.
  cbn. rewrite existsb_exists. split.
  - intros (x & Hx & E). apply String.eqb_eq in E. now subst.
  - intros H. exists s. split; [exact H | apply String.eqb_refl].
Qed.

Lemma in_choices_not_In (s : string) (choices : list string) :
  in_choices_or_None (Some s) choices = false <-> ~ In s choices.
Proof.
  rewrite <- in_choices_In.
  destruct (in_choices_or_None (Some s) choices); split; congruence.
Qed.

(** Decide the membership test of an operation from a fact about [In]. *)
Ltac decide_choice H :=
  first [ apply in_choices_In in H | apply in_choices_not_In in H ];
  rewrite H; reflexivity.

(** C8.  For each SUNAPI operation that takes an enumerated string
    ([continuous_move]: focus; [swing_control], [group_control],
    [tour_control], [trace_control]: mode) and every string [s]: when [s] is
    outside the allowed set the call raises an exception and the world is
    unchanged, so no request has been sent; when [s] is inside the allowed
    set the check raises nothing and the call is the transport exchange
    [__cmd] with the operation's payload. *)
Theorem enumerated_argument_check
  (net : Network) (get_text : string -> string) (self : SUNAPI.SUNAPICamera)
  (normalized_speed : bool) (pan tilt zoom channel group tour trace : option PrimFloat.float)
  (s : string) (w : World) :
  ((In s ["Near"; "Far"; "Stop"] ->
    SUNAPI.continuous_move net get_text self normalized_speed pan tilt zoom (Some s) w
    = SUNAPI.cmd net get_text self "ptzcontrol.cgi"
        [("msubmenu", VStr "continuous"); ("action", VStr "control");
         ("NormalizedSpeed", VBool normalized_speed); ("Pan", num pan);
         ("Tilt", num tilt); ("Zoom", num zoom); ("Focus", VStr s)] w) /\
   (~ In s ["Near"; "Far"; "Stop"] ->
    exists msg,
      SUNAPI.continuous_move net get_text self normalized_speed pan tilt zoom (Some s) w
      = (Raise (Exception msg), w))) /\
  ((In s ["Pan"; "Tilt"; "PanTilt"; "Stop"] ->
    SUNAPI.swing_control net get_text self channel (Some s) w
    = SUNAPI.cmd net get_text self "ptzcontrol.cgi"
        [("msubmenu", VStr "swing"); ("action", VStr "control");
         ("Channel", num channel); ("Mode", VStr s)] w) /\
   (~ In s ["Pan"; "Tilt"; "PanTilt"; "Stop"] ->
    exists msg,
      SUNAPI.swing_control net get_text self channel (Some s) w
      = (Raise (Exception msg), w))) /\
  ((In s ["Start"; "Stop"] ->
    SUNAPI.group_control net get_text self channel group (Some s) w
    = SUNAPI.cmd net get_text self "ptzcontrol.cgi"
        [("msubmenu", VStr "group"); ("action", VStr "control");
         ("Channel", num channel); ("Group", num group); ("Mode", VStr s)] w) /\
   (~ In s ["Start"; "Stop"] ->
    exists msg,
      SUNAPI.group_control net get_text self channel group (Some s) w
      = (Raise (Exception msg), w))) /\
  ((In s ["Start"; "Stop"] ->
    SUNAPI.tour_control net get_text self channel tour (Some s) w
    = SUNAPI.cmd net get_text self "ptzcontrol.cgi"
        [("msubmenu", VStr "tour"); ("action", VStr "control");
         ("Channel", num channel); ("Tour", num tour); ("Mode", VStr s)] w) /\
   (~ In s ["Start"; "Stop"] ->
    exists msg,
      SUNAPI.tour_control net get_text self channel tour (Some s) w
      = (Raise (Exception msg), w))) /\
  ((In s ["Start"; "Stop"] ->
    SUNAPI.trace_control net get_text self channel trace (Some s) w
    = SUNAPI.cmd net get_text self "ptzcontrol.cgi"
        [("msubmenu", VStr "trace"); ("action", VStr "control");
         ("Channel", num channel); ("Trace", num trace); ("Mode", VStr s)] w) /\
   (~ In s ["Start"; "Stop"] ->
    exists msg,
      SUNAPI.trace_control net get_text self channel trace (Some s) w
      = (Raise (Exception msg), w))).
Proof.
  unfold SUNAPI.continuous_move, SUNAPI.swing_control, SUNAPI.group_control,
    SUNAPI.tour_control, SUNAPI.trace_control.
  repeat split; intros H; try eexists; decide_choice H.
Qed.

Lemma enumerated_argument_check_witness :
  (exists msg,
     SUNAPI.continuous_move (Demo.answering 200 "OK") Demo.plain Demo.sunapi
       false None None None (Some "Closer") boot
     = (Raise (Exception msg), boot)) /\
  SUNAPI.swing_control (Demo.answering 200 "OK") Demo.plain Demo.sunapi
    (Some 0) (Some "PanTilt") boot
  = SUNAPI.cmd (Demo.answering 200 "OK") Demo.plain Demo.sunapi "ptzcontrol.cgi"
      [("msubmenu", VStr "swing"); ("action", VStr "control");
       ("Channel", num (Some 0)); ("Mode", VStr "PanTilt")] boot.
Proof.
  split.
  - apply (proj1 (enumerated_argument_check (Demo.answering 200 "OK") Demo.plain
                    Demo.sunapi false None None None None None None None
                    "Closer" boot)).
    cbn. intros [H | [H | [H | []]]]; discriminate H.
  - apply (proj1 (proj2 (enumerated_argument_check (Demo.answering 200 "OK")
                           Demo.plain Demo.sunapi false None None None (Some 0)
                           None None None "PanTilt" boot))).
    cbn. auto.
Defined.

(** ** ONVIF: presets addressed by name *)

Section ONVIF_presets.

Variables D Resp : Type.
Variable ptz : ONVIF.PTZService D Resp.

(** The loop ends at the first entry whose name, as [str] gives it, is the
    requested one; the entries after it are not looked at. *)
Lemma for_first_named_first {A : Type} (name : string)
  (before after : list ONVIF.Preset) (preset : ONVIF.Preset)
  (found : ONVIF.Preset -> A) (otherwise : A) :
  (forall q, In q before -> str (ONVIF.Name q) <> name) ->
  str (ONVIF.Name preset) = name ->
  ONVIF.for_first_named name (before ++ preset :: after) found otherwise
  = found preset.
Proof.
  intros Hbefore Hname. induction before as [| q before IH]; cbn.
  - apply String.eqb_eq in Hname. now rewrite Hname.
  - destruct (String.eqb_spec (str (ONVIF.Name q)) name) as [E | _].
    + exfalso. apply (Hbefore q); [now left | exact E].
    + apply IH. intros q' Hq'. apply Hbefore. now right.
Qed.

(** Without a match the loop runs to its end. *)
Lemma for_first_named_none {A : Type} (name : string)
  (presets : list ONVIF.Preset) (found : ONVIF.Preset -> A) (otherwise : A) :
  (forall q, In q presets -> str (ONVIF.Name q) <> name) ->
  ONVIF.for_first_named name presets found otherwise = otherwise.
Proof.
  intros Hnone. induction presets as [| q presets IH]; cbn; [reflexivity |].
  destruct (String.eqb_spec (str (ONVIF.Name q)) name) as [E | _].
  - exfalso. apply (Hnone q); [now left | exact E].
  - apply IH. intros q' Hq'. apply Hnone. now right.
Qed.

(** A list with a match splits at its first match. *)
Lemma first_match_split (name : string) (presets : list ONVIF.Preset) :
  (exists q, In q presets /\ str (ONVIF.Name q) = name) ->
  exists before preset after,
    presets = (before ++ preset :: after)%list /\
    str (ONVIF.Name preset) = name /\
    (forall q, In q before -> str (ONVIF.Name q) <> name).
Proof.
  induction presets as [| p presets IH]; intros (q & Hq & Hname).
  - destruct Hq.
  - destruct (String.eqb_spec (str (ONVIF.Name p)) name) as [E | N].
    + exists [], p, presets. repeat split; [exact E | intros ? []].
    + destruct IH as (before & preset & after & -> & Hp & Hb).
      * destruct Hq as [-> | Hq]; [contradiction | now exists q].
      * exists (p :: before), preset, after. repeat split; [exact Hp |].
        intros q' [<- | Hq']; [exact N | now apply Hb].
Qed.

(** The list fetch that opens each of the three operations. *)
Lemma get_preset_complete_run (self : ONVIF.ONVIFCamera) w presets d1 :
  ONVIF.GetPresets ptz (ONVIF.device w) (ONVIF.profile self) = (inr presets, d1) ->
  ONVIF.get_preset_complete D Resp ptz self w
  = (Return presets,
     {| ONVIF.device := d1;
        ONVIF.calls := ONVIF.calls w ++ [ONVIF.CGetPresets (ONVIF.profile self)] |}).
Proof.
  intros H. unfold ONVIF.get_preset_complete, ONVIF.invoke. now rewrite H.
Qed.

End ONVIF_presets.

(** Either some entry carries the name, or none does. *)
Lemma named_or_not (name : string) (presets : list ONVIF.Preset) :
  (exists q, In q presets /\ str (ONVIF.Name q) = name) \/
  (forall q, In q presets -> str (ONVIF.Name q) <> name).
Proof.
  induction presets as [| p presets [(q & Hq & E) | Hnone]].
  - right. intros q [].
  - left. exists q. split; [now right | exact E].
  - destruct (String.eqb_spec (str (ONVIF.Name p)) name) as [E | N].
    + left. exists p. split; [now left | exact E].
    + right. intros q [<- | Hq]; [exact N | now apply Hnone].
Qed.

(** C6.  Once [GetPresets] has answered with the list [presets]:
    if some entry's display name is the requested one, [set_preset] returns
    None and makes no [SetPreset] call (the loop returns at the first
    match); if no entry's name matches, it makes the [SetPreset] call with
    the given name and returns its response.  Consequently, on a device
    that keeps its presets, a [set_preset] that follows a [set_preset] of
    the same name at once makes no [SetPreset] call, so it creates no second
    entry, and returns None. *)
Theorem set_preset_existing_name
  (D Resp : Type) (ptz : ONVIF.PTZService D Resp) (self : ONVIF.ONVIFCamera)
  (name : string) (w : ONVIF.World D) (presets : list ONVIF.Preset) (d1 : D) :
  ONVIF.GetPresets ptz (ONVIF.device w) (ONVIF.profile self) = (inr presets, d1) ->
  let listed :=
    {| ONVIF.device := d1;
       ONVIF.calls := ONVIF.calls w ++ [ONVIF.CGetPresets (ONVIF.profile self)] |} in
  let created d2 :=
    {| ONVIF.device := d2;
       ONVIF.calls := ONVIF.calls w ++ [ONVIF.CGetPresets (ONVIF.profile self);
                                        ONVIF.CSetPreset (ONVIF.profile self) name] |} in
  ((exists q, In q presets /\ str (ONVIF.Name q) = name) ->
   ONVIF.set_preset D Resp ptz self name w = (Return None, listed)) /\
  ((forall q, In q presets -> str (ONVIF.Name q) <> name) ->
   ONVIF.set_preset D Resp ptz self name w
   = match ONVIF.SetPreset ptz d1 (ONVIF.profile self) name with
     | (inr response, d2) => (Return (Some response), created d2)
     | (inl e, d2) => (Raise e, created d2)
     end) /\
  (ONVIF.Retentive ptz ->
   forall result w',
     ONVIF.set_preset D Resp ptz self name w = (Return result, w') ->
     ONVIF.set_preset D Resp ptz self name w'
     = (Return None,
        {| ONVIF.device := ONVIF.device w';
           ONVIF.calls := ONVIF.calls w' ++ [ONVIF.CGetPresets (ONVIF.profile self)] |})).
Proof.
  intros Hlist listed created.
  assert (Hfound : forall (w0 : ONVIF.World D) l d0,
             ONVIF.GetPresets ptz (ONVIF.device w0) (ONVIF.profile self) = (inr l, d0) ->
             (exists q, In q l /\ str (ONVIF.Name q) = name) ->
             ONVIF.set_preset D Resp ptz self name w0
             = (Return None,
                {| ONVIF.device := d0;
                   ONVIF.calls := ONVIF.calls w0
                                  ++ [ONVIF.CGetPresets (ONVIF.profile self)] |})).
  { intros w0 l d0 H0 Hex. unfold ONVIF.set_preset.
    rewrite (bind_Return _ _ _ _ _ (get_preset_complete_run D Resp ptz self w0 l d0 H0)).
    destruct (first_match_split name l Hex) as (before & p & after & -> & Hp & Hb).
    now rewrite for_first_named_first. }
  assert (Hnone : (forall q, In q presets -> str (ONVIF.Name q) <> name) ->
                  ONVIF.set_preset D Resp ptz self name w
                  = match ONVIF.SetPreset ptz d1 (ONVIF.profile self) name with
                    | (inr response, d2) => (Return (Some response), created d2)
                    | (inl e, d2) => (Raise e, created d2)
                    end).
  { intros Hno. unfold ONVIF.set_preset.
    rewrite (bind_Return _ _ _ _ _ (get_preset_complete_run D Resp ptz self w presets d1 Hlist)).
    rewrite for_first_named_none by exact Hno.
    unfold bind, ONVIF.invoke, created. cbn.
    destruct (ONVIF.SetPreset ptz d1 (ONVIF.profile self) name) as [[e | r] d2];
      cbn; rewrite <- app_assoc; reflexivity. }
  split; [apply Hfound; exact Hlist |].
  split; [exact Hnone |].
  intros [Hrepeat Hcreated] result w' Hfirst.
  destruct (named_or_not name presets) as [Hex | Hno].
  - rewrite (Hfound w presets d1 Hlist Hex) in Hfirst.
    injection Hfirst as _ <-. cbn.
    apply Hfound with (l := presets); [| exact Hex].
    cbn. apply Hrepeat with (d := ONVIF.device w). exact Hlist.
  - rewrite (Hnone Hno) in Hfirst.
    destruct (ONVIF.SetPreset ptz d1 (ONVIF.profile self) name) as [[e | r] d2] eqn:Hset;
      [discriminate |].
    injection Hfirst as _ <-. cbn.
    destruct (Hcreated _ _ _ _ _ Hset) as (l & Hl & Hex).
    apply Hfound with (l := l); [exact Hl | exact Hex].
Qed.

(** The list-keeping device of the concrete runs keeps its presets. *)
Lemma demo_device_retentive : ONVIF.Retentive Demo.device.
Proof.
  split; cbn.
  - intros d _ presets d' H. now injection H as <- <-.
  - intros d _ name r d' H. injection H as _ <-.
    eexists. split; [reflexivity |].
    eexists. split; [apply in_or_app; right; left; reflexivity | reflexivity].
Qed.

Lemma set_preset_existing_name_witness :
  ONVIF.set_preset _ _ Demo.device Demo.onvif "Dock"
    (snd (ONVIF.set_preset _ _ Demo.device Demo.onvif "Dock" Demo.installed))
  = (Return None,
     {| ONVIF.device :=
          (Demo.presets
           ++ [{| ONVIF.Name := Some "Dock"; ONVIF.token := "token:Dock" |}])%list;
        ONVIF.calls :=
          [ONVIF.CGetPresets "Profile_1"; ONVIF.CSetPreset "Profile_1" "Dock";
           ONVIF.CGetPresets "Profile_1"] |}).
Proof.
  exact (proj2 (proj2 (set_preset_existing_name _ _ Demo.device Demo.onvif "Dock"
                         Demo.installed Demo.presets Demo.presets eq_refl))
           demo_device_retentive (Some "token:Dock") _ eq_refl).
Defined.

(** C7.  Once [GetPresets] has answered with the list [presets]:
    if some entry's display name is the requested one, [remove_preset] and
    [go_to_preset] make their call ([RemovePreset], [GotoPreset]) with the
    token of the first such entry and return the response of that call (or
    raise its fault); if no entry's name matches, they return None and make
    no call after the list fetch. *)
Theorem preset_resolved_by_first_match
  (D Resp : Type) (ptz : ONVIF.PTZService D Resp) (self : ONVIF.ONVIFCamera)
  (name : string) (w : ONVIF.World D) (presets : list ONVIF.Preset) (d1 : D) :
  ONVIF.GetPresets ptz (ONVIF.device w) (ONVIF.profile self) = (inr presets, d1) ->
  let listed :=
    {| ONVIF.device := d1;
       ONVIF.calls := ONVIF.calls w ++ [ONVIF.CGetPresets (ONVIF.profile self)] |} in
  let called call (d2 : D) :=
    {| ONVIF.device := d2;
       ONVIF.calls := ONVIF.calls w ++ [ONVIF.CGetPresets (ONVIF.profile self); call] |} in
  ((exists q, In q presets /\ str (ONVIF.Name q) = name) ->
   exists before preset after,
     presets = (before ++ preset :: after)%list /\
     str (ONVIF.Name preset) = name /\
     (forall q, In q before -> str (ONVIF.Name q) <> name) /\
     ONVIF.remove_preset D Resp ptz self name w
     = match ONVIF.RemovePreset ptz d1 (ONVIF.profile self) (ONVIF.token preset) with
       | (inr response, d2) =>
           (Return (Some response),
            called (ONVIF.CRemovePreset (ONVIF.profile self) (ONVIF.token preset)) d2)
       | (inl e, d2) =>
           (Raise e,
            called (ONVIF.CRemovePreset (ONVIF.profile self) (ONVIF.token preset)) d2)
       end /\
     ONVIF.go_to_preset D Resp ptz self name w
     = match ONVIF.GotoPreset ptz d1 (ONVIF.profile self) (ONVIF.token preset) with
       | (inr response, d2) =>
           (Return (Some response),
            called (ONVIF.CGotoPreset (ONVIF.profile self) (ONVIF.token preset)) d2)
       | (inl e, d2) =>
           (Raise e,
            called (ONVIF.CGotoPreset (ONVIF.profile self) (ONVIF.token preset)) d2)
       end) /\
  ((forall q, In q presets -> str (ONVIF.Name q) <> name) ->
   ONVIF.remove_preset D Resp ptz self name w = (Return None, listed) /\
   ONVIF.go_to_preset D Resp ptz self name w = (Return None, listed)).
Proof.
  intros Hlist listed called.
  pose proof (get_preset_complete_run D Resp ptz self w presets d1 Hlist) as Hrun.
  split.
  - intros Hex.
    destruct (first_match_split name presets Hex) as (before & p & after & E & Hp & Hb).
    exists before, p, after.
    split; [exact E |]. split; [exact Hp |]. split; [exact Hb |].
    unfold ONVIF.remove_preset, ONVIF.go_to_preset.
    rewrite !(bind_Return _ _ _ _ _ Hrun). rewrite E.
    rewrite !for_first_named_first by assumption.
    unfold bind, ONVIF.invoke, called. cbn.
    split.
    + destruct (ONVIF.RemovePreset ptz d1 _ _) as [[e | r] d2];
        cbn; rewrite <- app_assoc; reflexivity.
    + destruct (ONVIF.GotoPreset ptz d1 _ _) as [[e | r] d2];
        cbn; rewrite <- app_assoc; reflexivity.
  - intros Hno.
    unfold ONVIF.remove_preset, ONVIF.go_to_preset.
    rewrite !(bind_Return _ _ _ _ _ Hrun).
    rewrite !for_first_named_none by exact Hno.
    split; reflexivity.
Qed.

Lemma preset_resolved_by_first_match_witness :
  (exists before preset after,
     Demo.presets = (before ++ preset :: after)%list /\
     str (ONVIF.Name preset) = "Door" /\
     (forall q, In q before -> str (ONVIF.Name q) <> "Door") /\
     ONVIF.remove_preset _ _ Demo.device Demo.onvif "Door" Demo.installed
     = (Return (Some ("removed " ++ ONVIF.token preset)),
        {| ONVIF.device :=
             filter (fun p => negb (String.eqb (ONVIF.token p) (ONVIF.token preset)))
               Demo.presets;
           ONVIF.calls :=
             [ONVIF.CGetPresets "Profile_1";
              ONVIF.CRemovePreset "Profile_1" (ONVIF.token preset)] |}) /\
     ONVIF.go_to_preset _ _ Demo.device Demo.onvif "Door" Demo.installed
     = (Return (Some ("at " ++ ONVIF.token preset)),
        {| ONVIF.device := Demo.presets;
           ONVIF.calls :=
             [ONVIF.CGetPresets "Profile_1";
              ONVIF.CGotoPreset "Profile_1" (ONVIF.token preset)] |})) /\
  (ONVIF.remove_preset _ _ Demo.device Demo.onvif "Pier" Demo.installed
   = (Return None,
      {| ONVIF.device := Demo.presets;
         ONVIF.calls := [ONVIF.CGetPresets "Profile_1"] |}) /\
   ONVIF.go_to_preset _ _ Demo.device Demo.onvif "Pier" Demo.installed
   = (Return None,
      {| ONVIF.device := Demo.presets;
         ONVIF.calls := [ONVIF.CGetPresets "Profile_1"] |})).
Proof.
  split.
  - apply (proj1 (preset_resolved_by_first_match _ _ Demo.device Demo.onvif
                    "Door" Demo.installed Demo.presets Demo.presets eq_refl)).
    exists {| ONVIF.Name := Some "Door"; ONVIF.token := "4" |}.
    split; [cbn; auto | reflexivity].
  - apply (proj2 (preset_resolved_by_first_match _ _ Demo.device Demo.onvif
                    "Pier" Demo.installed Demo.presets Demo.presets eq_refl)).
    cbn. intros q [<- | [<- | [<- | [<- | []]]]]; discriminate.
Defined.

(** The concrete run: of the two entries named Door, the first one, with
    token 2, is removed; the nameless entry and the later Door stay. *)
Example remove_first_door :
  ONVIF.remove_preset _ _ Demo.device Demo.onvif "Door" Demo.installed
  = (Return (Some "removed 2"),
     {| ONVIF.device :=
          [{| ONVIF.Name := Some "Yard"; ONVIF.token := "1" |};
           {| ONVIF.Name := None; ONVIF.token := "3" |};
           {| ONVIF.Name := Some "Door"; ONVIF.token := "4" |}];
        ONVIF.calls :=
          [ONVIF.CGetPresets "Profile_1"; ONVIF.CRemovePreset "Profile_1" "2"] |}).
Proof. reflexivity. Qed.

(** [str] of an absent name is the text None, so a nameless entry answers
    to that name. *)
Example nameless_entry_named_None :
  ONVIF.set_preset _ _ Demo.device Demo.onvif "None" Demo.installed
  = (Return None,
     {| ONVIF.device := Demo.presets;
        ONVIF.calls := [ONVIF.CGetPresets "Profile_1"] |}).
Proof. reflexivity. Qed.

(** * Further properties of the facades *)

(** ** SUNAPI: what a relative move sends *)

(** * Further properties of the facades *)

(** ** SUNAPI: what a relative move sends *)

(** The three cases of the zoom block, in the order of the code. *)
Lemma clamp_zoom_cases (z d : float) :
  ((40 <? z + d)%float = true /\ SUNAPI.clamp_zoom z (Some d) = Some (40 - z)%float) \/
  ((40 <? z + d)%float = false /\ (z + d <? 1)%float = true /\
   SUNAPI.clamp_zoom z (Some d) = Some (1 - z)%float) \/
  ((40 <? z + d)%float = false /\ (z + d <? 1)%float = false /\
   SUNAPI.clamp_zoom z (Some d) = Some d).
Proof.
  unfold SUNAPI.clamp_zoom.
  destruct (40 <? z + d)%float; [auto |].
  destruct (z + d <? 1)%float; auto.
Qed.

(** A sum inside the bounds fires neither test of a block. *)
Lemma in_bounds_no_test (lo hi s : float) :
  (lo <=? s)%float = true -> (s <=? hi)%float = true ->
  (hi <? s)%float = false /\ (s <? lo)%float = false.
Proof.
  intros Hlo Hhi. split.
  - destruct (hi <? s)%float eqn:E; [| reflexivity].
    apply ltb_true_leb in E. congruence.
  - destruct (s <? lo)%float eqn:E; [| reflexivity].
    apply ltb_true_leb in E. congruence.
Qed.

(** Adding a number to a zero gives that number. *)
Lemma add_zero_l (p x : float) :
  (p =? 0)%float = true -> is_number x -> (p + x =? x)%float = true.
Proof.
  unfold is_number. rewrite !eqb_spec, add_spec, Prim2SF_0.
  destruct (Prim2SF p) as [sp | sp | | sp mp ep]; try destruct sp;
    simpl; try discriminate; intros _;
    destruct (Prim2SF x) as [s | s | | s m e]; try destruct s; simpl; auto.
Qed.

(** Decoding a field neither sends nor prints. *)
Lemma sunapi_field_world (float : string -> option PrimFloat.float) (body : string) (i : nat)
  (w : World) :
  snd (SUNAPI.field float body i w) = w.
Proof.
  unfold SUNAPI.field, bind, opt, ret, raise.
  destruct (nth_error (Text.split body) i) as [token |]; [| reflexivity].
  destruct (nth_error (Text.split_on "=" token) 1) as [piece |]; [| reflexivity].
  destruct (float piece); reflexivity.
Qed.

(** How [get_ptz_status] ends once [__cmd] has returned: the four fields
    are decoded in order, and the first that fails decides. *)
Lemma sunapi_status_after_cmd (net : Network) (get_text : string -> string)
  (float : string -> option PrimFloat.float) (self : SUNAPI.SUNAPICamera)
  (w w1 : World) (response : Response) :
  SUNAPI.cmd net get_text self "ptzcontrol.cgi"
    [("msubmenu", VStr "query"); ("action", VStr "view");
     ("Query", VStr "Pan,Tilt,Zoom")] w = (Return response, w1) ->
  snd (SUNAPI.get_ptz_status net get_text float self w) = w1.
Proof.
  intros H. unfold SUNAPI.get_ptz_status.
  rewrite (bind_Return _ _ _ _ _ H).
  unfold bind.
  pose proof (sunapi_field_world float (text response) 0 w1) as F0.
  destruct (SUNAPI.field float (text response) 0 w1) as [[a | e | c] w2];
    cbn in F0; subst w2; [| reflexivity | reflexivity].
  pose proof (sunapi_field_world float (text response) 1 w1) as F1.
  destruct (SUNAPI.field float (text response) 1 w1) as [[b | e | c] w2];
    cbn in F1; subst w2; [| reflexivity | reflexivity].
  pose proof (sunapi_field_world float (text response) 2 w1) as F2.
  destruct (SUNAPI.field float (text response) 2 w1) as [[c' | e | c] w2];
    cbn in F2; subst w2; [| reflexivity | reflexivity].
  pose proof (sunapi_field_world float (text response) 3 w1) as F3.
  destruct (SUNAPI.field float (text response) 3 w1) as [[d | e | c] w2];
    cbn in F3; subst w2; reflexivity.
Qed.

(** [get_ptz_status] sends the status query and nothing else, however it
    ends. *)
Lemma sunapi_status_sent (net : Network) (get_text : string -> string)
  (float : string -> option PrimFloat.float) (self : SUNAPI.SUNAPICamera) (w : World) :
  sent (snd (SUNAPI.get_ptz_status net get_text float self w))
  = (sent w ++ [SUNAPI.request self "ptzcontrol.cgi"
                  [("msubmenu", VStr "query"); ("action", VStr "view");
                   ("Query", VStr "Pan,Tilt,Zoom")]])%list.
Proof.
  pose proof (sunapi_cmd_sent net get_text self "ptzcontrol.cgi"
                [("msubmenu", VStr "query"); ("action", VStr "view");
                 ("Query", VStr "Pan,Tilt,Zoom")] w) as Hsent.
  destruct (SUNAPI.cmd net get_text self "ptzcontrol.cgi" _ w)
    as [[response | e | c] w1] eqn:Hcmd; cbn in Hsent.
  - rewrite (sunapi_status_after_cmd _ _ float _ _ _ _ Hcmd). exact Hsent.
  - unfold SUNAPI.get_ptz_status. rewrite (bind_Raise _ _ _ _ _ Hcmd). exact Hsent.
  - unfold SUNAPI.get_ptz_status. rewrite (bind_Exit _ _ _ _ _ Hcmd). exact Hsent.
Qed.

(** A sum below 1 is not above 40: the two tests of the zoom block exclude
    each other. *)
Lemma Prim2SF_1 : Prim2SF 1 = S754_finite false 4503599627370496 (-52).
Proof. vm_compute. reflexivity. Qed.

Lemma Prim2SF_40 : Prim2SF 40 = S754_finite false 5629499534213120 (-47).
Proof. vm_compute. reflexivity. Qed.

Lemma below_1_not_above_40 (x : float) :
  (x <? 1)%float = true -> (40 <? x)%float = false.
Proof.
  rewrite !ltb_spec, Prim2SF_1, Prim2SF_40.
  destruct (Prim2SF x) as [s | s | | s m e]; try destruct s; simpl; auto.
  unfold SFltb, SFcompare.
  destruct (Z.compare_spec e (-52)); try discriminate; intros _;
    destruct (Z.compare_spec (-47) e); try reflexivity; lia.
Qed.

(** X1.  All operations are the binary64 operations of the code.  For every
    current zoom [z] and every zoom delta [d] that is not None, the zoom
    delta [d'] that [relative_move] sends is [40 - z] when [z + d > 40], is
    [1 - z] when [z + d < 1], and is [d] itself otherwise; in that last
    case, when [z + d] is a number, the projected zoom [z + d'] lies in
    [1, 40]. *)
Theorem relative_move_zoom_clamping
  (net : Network) (get_text : string -> string)
  (float : string -> option PrimFloat.float)
  (self : SUNAPI.SUNAPICamera) (d : PrimFloat.float)
  (pan tilt : option PrimFloat.float)
  (w w1 : World) (p t z zp : PrimFloat.float) :
  SUNAPI.get_ptz_status net get_text float self w = (Return (p, t, z, zp), w1) ->
  exists (msubmenu : string) (d' : PrimFloat.float)
         (pan' tilt' : option PrimFloat.float),
    SUNAPI.relative_move net get_text float self pan tilt (Some d) w
    = SUNAPI.cmd net get_text self "ptzcontrol.cgi"
        (SUNAPI.move_payload msubmenu pan' tilt' (Some d')) w1 /\
    SUNAPI.clamp_zoom z (Some d) = Some d' /\
    ((40 <? z + d)%float = true -> d' = (40 - z)%float) /\
    ((z + d <? 1)%float = true -> d' = (1 - z)%float) /\
    ((40 <? z + d)%float = false -> (z + d <? 1)%float = false ->
     d' = d /\
     (is_number (z + d) ->
      (1 <=? z + d')%float = true /\ (z + d' <=? 40)%float = true)).
Proof.
  intros H.
  rewrite relative_move_run with (1 := H).
  destruct (clamp_zoom_cases z d) as [[Hhi E] | [(Hhi & Hlo & E) | (Hhi & Hlo & E)]];
    rewrite E; do 4 eexists;
    (split; [reflexivity |]); (split; [reflexivity |]);
    (split; [| split]); intros; try congruence.
  - pose proof (below_1_not_above_40 _ H0). congruence.
  - split; [reflexivity |]. intros Hn.
    split; apply ltb_false_leb; auto; reflexivity.
Qed.

Lemma relative_move_zoom_clamping_witness :
  SUNAPI.clamp_zoom 35 (Some 10) = Some (40 - 35)%float.
Proof.
  destruct (relative_move_zoom_clamping (Demo.reporting Demo.scenario)
              Demo.plain Text.decimal Demo.sunapi 10 (Some 5) (Some 15)
              boot Demo.queried 358 80 35 1200 eq_refl)
    as (m & d' & pan' & tilt' & _ & Hc & Hhi & _).
  rewrite Hc. f_equal. apply Hhi. reflexivity.
Defined.

(** A clamped delta is a rounded difference, so the projection it gives
    need not be the bound itself: from zoom 1.3 the upper clamp [40 - 1.3]
    is 38.700000000000003; the binary64 sum of the two is 40, the sum of
    the real numbers they stand for is above 40. *)
Example zoom_clamp_rounds :
  SUNAPI.clamp_zoom 1.3 (Some 100) = Some 38.700000000000003%float /\
  (1.3 + 38.700000000000003 = 40)%float /\
  exists q q' : Q,
    exact 1.3 = Some q /\ exact 38.700000000000003 = Some q' /\ (40 < q + q')%Q.
Proof.
  split; [reflexivity |]. split; [reflexivity |].
  do 2 eexists. split; [vm_compute; reflexivity |].
  split; [vm_compute; reflexivity |]. reflexivity.
Qed.

(** X3.  Each delta on its own: a delta that is None, or whose projection
    is inside the bounds that its block tests ([0, 360] for pan, [-20, 90]
    for tilt, [1, 40] for zoom), is sent by [relative_move] exactly as it
    was given, whatever happens to the two other deltas. *)
Theorem relative_move_in_bounds_untouched
  (net : Network) (get_text : string -> string)
  (float : string -> option PrimFloat.float)
  (self : SUNAPI.SUNAPICamera) (pan tilt zoom : option PrimFloat.float)
  (w w1 : World) (p t z zp : PrimFloat.float) :
  SUNAPI.get_ptz_status net get_text float self w = (Return (p, t, z, zp), w1) ->
  exists (msubmenu : string) (pan' tilt' zoom' : option PrimFloat.float),
    SUNAPI.relative_move net get_text float self pan tilt zoom w
    = SUNAPI.cmd net get_text self "ptzcontrol.cgi"
        (SUNAPI.move_payload msubmenu pan' tilt' zoom') w1 /\
    ((forall d, pan = Some d ->
        (0 <=? p + d)%float = true /\ (p + d <=? 360)%float = true) ->
     pan' = pan) /\
    ((forall d, tilt = Some d ->
        (-20 <=? t + d)%float = true /\ (t + d <=? 90)%float = true) ->
     tilt' = tilt) /\
    ((forall d, zoom = Some d ->
        (1 <=? z + d)%float = true /\ (z + d <=? 40)%float = true) ->
     zoom' = zoom).
Proof.
  intros H.
  exists (if (p =? 0)%float then "absolute" else "relative"),
    (SUNAPI.clamp_pan p pan), (SUNAPI.clamp_tilt t tilt), (SUNAPI.clamp_zoom z zoom).
  split; [exact (relative_move_run net get_text float self pan tilt zoom w w1 p t z zp H) |].
  split; [| split].
  - intros Hin. destruct pan as [d |]; [| reflexivity].
    destruct (Hin d eq_refl) as [Hlo Hhi].
    destruct (in_bounds_no_test _ _ _ Hlo Hhi) as [N1 N2].
    unfold SUNAPI.clamp_pan. now rewrite N1, N2.
  - intros Hin. destruct tilt as [d |]; [| reflexivity].
    destruct (Hin d eq_refl) as [Hlo Hhi].
    destruct (in_bounds_no_test _ _ _ Hlo Hhi) as [N1 N2].
    unfold SUNAPI.clamp_tilt. now rewrite N1, N2.
  - intros Hin. destruct zoom as [d |]; [| reflexivity].
    destruct (Hin d eq_refl) as [Hlo Hhi].
    destruct (in_bounds_no_test _ _ _ Hlo Hhi) as [N1 N2].
    unfold SUNAPI.clamp_zoom. now rewrite N1, N2.
Qed.

Lemma relative_move_in_bounds_untouched_witness :
  exists (msubmenu : string) (pan' tilt' : option float),
    SUNAPI.relative_move (Demo.reporting Demo.scenario) Demo.plain Text.decimal
      Demo.sunapi (Some 5) (Some 15) (Some (-4)) boot
    = SUNAPI.cmd (Demo.reporting Demo.scenario) Demo.plain Demo.sunapi
        "ptzcontrol.cgi"
        (SUNAPI.move_payload msubmenu pan' tilt' (Some (-4))) Demo.queried.
Proof.
  destruct (relative_move_in_bounds_untouched (Demo.reporting Demo.scenario)
              Demo.plain Text.decimal Demo.sunapi (Some 5) (Some 15) (Some (-4))
              boot Demo.queried 358 80 35 1200 eq_refl)
    as (m & pan' & tilt' & zoom' & Hrun & _ & _ & Hzoom).
  exists m, pan', tilt'. rewrite Hrun, Hzoom; [reflexivity |].
  intros d E. injection E as <-. split; reflexivity.
Defined.

(** X4.  Whatever the camera answers, [relative_move] sends the status
    query first and at most one request after it, and that request is a
    "relative" or an "absolute" move to [ptzcontrol.cgi]. *)
Theorem relative_move_requests
  (net : Network) (get_text : string -> string) 
  (float : string -> option PrimFloat.float)
  (self : SUNAPI.SUNAPICamera) (pan tilt zoom : option PrimFloat.float) (w : World) :
  let query :=
    SUNAPI.request self "ptzcontrol.cgi"
      [("msubmenu", VStr "query"); ("action", VStr "view");
       ("Query", VStr "Pan,Tilt,Zoom")] in
  let after := sent (snd (SUNAPI.relative_move net get_text float self pan tilt zoom w)) in
  after = (sent w ++ [query])%list \/
  exists (msubmenu : string) (pan' tilt' zoom' : option PrimFloat.float),
    (msubmenu = "relative" \/ msubmenu = "absolute") /\
    after = (sent w ++ [query;
                        SUNAPI.request self "ptzcontrol.cgi"
                          (SUNAPI.move_payload msubmenu pan' tilt' zoom')])%list.
Proof.
  cbv zeta.
  pose proof (sunapi_status_sent net get_text float self w) as Hq.
  destruct (SUNAPI.get_ptz_status net get_text float self w)
    as [[[[[p t] z] zp] | e | c] w1] eqn:Hs; cbn in Hq.
  - right.
    exists (if (p =? 0)%float then "absolute" else "relative"),
      (SUNAPI.clamp_pan p pan), (SUNAPI.clamp_tilt t tilt), (SUNAPI.clamp_zoom z zoom).
    split; [destruct (p =? 0)%float; auto |].
    rewrite relative_move_run with (1 := Hs).
    rewrite sunapi_cmd_sent, Hq, <- app_assoc. reflexivity.
  - left.
    rewrite (proj1 (relative_move_no_status net get_text float self pan tilt zoom w)
               e w1 Hs).
    exact Hq.
  - left.
    rewrite (proj2 (relative_move_no_status net get_text float self pan tilt zoom w)
               c w1 Hs).
    exact Hq.
Qed.

(** X5.  When the queried pan is 0, [relative_move] is the status query
    followed by [absolute_move] of the clamped deltas; the pan it passes is
    then the projected pan itself. *)
Theorem relative_move_at_zero_is_absolute_move
  (net : Network) (get_text : string -> string)
  (float : string -> option PrimFloat.float)
  (self : SUNAPI.SUNAPICamera) (pan tilt zoom : option PrimFloat.float)
  (w w1 : World) (p t z zp : PrimFloat.float) :
  SUNAPI.get_ptz_status net get_text float self w = (Return (p, t, z, zp), w1) ->
  (p =? 0)%float = true ->
  SUNAPI.relative_move net get_text float self pan tilt zoom w
  = SUNAPI.absolute_move net get_text self (SUNAPI.clamp_pan p pan)
      (SUNAPI.clamp_tilt t tilt) (SUNAPI.clamp_zoom z zoom) w1 /\
  (forall d', SUNAPI.clamp_pan p pan = Some d' -> is_number d' ->
     (p + d' =? d')%float = true).
Proof.
  intros H Hp. split.
  - rewrite relative_move_run with (1 := H).
    rewrite Hp. reflexivity.
  - intros d' _ Hd. exact (add_zero_l p d' Hp Hd).
Qed.

Lemma relative_move_at_zero_is_absolute_move_witness :
  SUNAPI.relative_move (Demo.reporting Demo.near_360) Demo.plain Text.decimal
    Demo.sunapi (Some (-30)) (Some 15) None boot
  = SUNAPI.absolute_move (Demo.reporting Demo.near_360) Demo.plain Demo.sunapi
      (Some 330) (Some 15) None Demo.queried.
Proof.
  apply (relative_move_at_zero_is_absolute_move (Demo.reporting Demo.near_360)
           Demo.plain Text.decimal Demo.sunapi (Some (-30)) (Some 15) None
           boot Demo.queried 0 0 1 0 eq_refl).
  reflexivity.
Defined.



(** ** SUNAPI: replies that cannot be decoded *)

(** A field is decoded, or it raises IndexError or ValueError; the world
    stays as it is. *)
Lemma sunapi_field_outcome 
  (float : string -> option PrimFloat.float) (body : string) (i : nat)
  (w : World) :
  (exists q, SUNAPI.field float body i w = (Return q, w)) \/
  SUNAPI.field float body i w = (Raise IndexError, w) \/
  SUNAPI.field float body i w = (Raise ValueError, w).
Proof.
  unfold SUNAPI.field, bind, opt, ret, raise.
  destruct (nth_error (Text.split body) i) as [token |]; [| auto].
  destruct (nth_error (Text.split_on "=" token) 1) as [piece |]; [| auto].
  destruct (float piece) as [q |]; [left; now exists q | auto].
Qed.

(** A field past the last token raises IndexError. *)
Lemma sunapi_field_missing 
  (float : string -> option PrimFloat.float) (body : string) (i : nat)
  (w : World) :
  (List.length (Text.split body) <= i)%nat ->
  SUNAPI.field float body i w = (Raise IndexError, w).
Proof.
  intros H. unfold SUNAPI.field, bind, opt, raise.
  apply nth_error_None in H. now rewrite H.
Qed.

(** One step of the decoder: either the field is there and decoding goes
    on, or the whole call raises. *)
Ltac decode_field float response i w1 :=
  let Hf := fresh "Hf" in
  destruct (sunapi_field_outcome float (text response) i w1) as [[?q Hf] | [Hf | Hf]];
  [rewrite (bind_Return _ _ _ _ _ Hf)
  | rewrite (bind_Raise _ _ _ _ _ Hf); eexists; split; [left; reflexivity | reflexivity]
  | rewrite (bind_Raise _ _ _ _ _ Hf); eexists; split; [right; reflexivity | reflexivity]].

(** X7.  When the reply to the status query has fewer than four
    white-space separated tokens, [get_ptz_status] does not return: it
    raises IndexError or ValueError after the one request; [relative_move]
    then raises the same exception and sends no move. *)
Theorem get_ptz_status_short_reply
  (net : Network) (get_text : string -> string) 
  (float : string -> option PrimFloat.float)
  (self : SUNAPI.SUNAPICamera) (pan tilt zoom : option PrimFloat.float)
  (w w1 : World) (response : Response) :
  SUNAPI.cmd net get_text self "ptzcontrol.cgi"
    [("msubmenu", VStr "query"); ("action", VStr "view");
     ("Query", VStr "Pan,Tilt,Zoom")] w = (Return response, w1) ->
  (List.length (Text.split (text response)) < 4)%nat ->
  exists e : exn,
    (e = IndexError \/ e = ValueError) /\
    SUNAPI.get_ptz_status net get_text float self w = (Raise e, w1) /\
    SUNAPI.relative_move net get_text float self pan tilt zoom w = (Raise e, w1).
Proof.
  intros Hcmd Hshort.
  assert (Hstatus : exists e : exn,
             (e = IndexError \/ e = ValueError) /\
             SUNAPI.get_ptz_status net get_text float self w = (Raise e, w1)).
  { unfold SUNAPI.get_ptz_status.
    rewrite (bind_Return _ _ _ _ _ Hcmd).
    decode_field float response 0%nat w1.
    decode_field float response 1%nat w1.
    decode_field float response 2%nat w1.
    rewrite (bind_Raise _ _ _ _ _
               (sunapi_field_missing float (text response) 3 w1 ltac:(lia))).
    eexists; split; [left; reflexivity | reflexivity]. }
  destruct Hstatus as (e & He & Hs).
  exists e. split; [exact He |]. split; [exact Hs |].
  exact (proj1 (relative_move_no_status net get_text float self pan tilt zoom w)
           e w1 Hs).
Qed.

Lemma get_ptz_status_short_reply_witness :
  exists e : exn,
    (e = IndexError \/ e = ValueError) /\
    SUNAPI.get_ptz_status (Demo.reporting "Pan=1.00 Tilt=2.00 Zoom=3.00")
      Demo.plain Text.decimal Demo.sunapi boot = (Raise e, Demo.queried) /\
    SUNAPI.relative_move (Demo.reporting "Pan=1.00 Tilt=2.00 Zoom=3.00")
      Demo.plain Text.decimal Demo.sunapi (Some 5) None None boot
    = (Raise e, Demo.queried).
Proof.
  apply (get_ptz_status_short_reply (Demo.reporting "Pan=1.00 Tilt=2.00 Zoom=3.00")
           Demo.plain Text.decimal Demo.sunapi (Some 5) None None boot Demo.queried
           {| status_code := 200; text := "Pan=1.00 Tilt=2.00 Zoom=3.00" |} eq_refl).
  vm_compute. lia.
Defined.

(** X8.  When the status query is answered with status 401,
    [relative_move] exits the process with code 1 after printing the
    decoded body; the status query is the only request it has sent. *)
Theorem relative_move_unauthorized
  (net : Network) (get_text : string -> string) 
  (float : string -> option PrimFloat.float)
  (self : SUNAPI.SUNAPICamera) (pan tilt zoom : option PrimFloat.float)
  (w : World) (response : Response) :
  let query :=
    SUNAPI.request self "ptzcontrol.cgi"
      [("msubmenu", VStr "query"); ("action", VStr "view");
       ("Query", VStr "Pan,Tilt,Zoom")] in
  net (sent w) query = inr response ->
  status_code response = 401%Z ->
  SUNAPI.relative_move net get_text float self pan tilt zoom w
  = (Exit 1,
     {| sent := sent w ++ [query];
        printed := printed w ++ ["%s " ++ get_text (text response)] |}).
Proof.
  intros query Hnet Hcode. subst query.
  apply (proj2 (relative_move_no_status net get_text float self pan tilt zoom w)).
  unfold SUNAPI.get_ptz_status.
  apply bind_Exit.
  unfold SUNAPI.cmd, bind, get. rewrite Hnet. cbn. rewrite Hcode. reflexivity.
Qed.

Lemma relative_move_unauthorized_witness :
  SUNAPI.relative_move (Demo.answering 401 "Unauthorized") Demo.plain
    Text.decimal Demo.sunapi (Some 5) (Some 15) (Some 10) boot
  = (Exit 1,
     {| sent := [Demo.status_query]; printed := ["%s Unauthorized"] |}).
Proof.
  exact (relative_move_unauthorized (Demo.answering 401 "Unauthorized") Demo.plain
           Text.decimal Demo.sunapi (Some 5) (Some 15) (Some 10) boot
           {| status_code := 401; text := "Unauthorized" |} eq_refl eq_refl).
Defined.

(** ** SUNAPI: the other operations *)

(** [__cmd] of the VAPIX facade sends exactly one request, however it ends. *)
Lemma vapix_cmd_sent (net : Network) (get_text : string -> string)
  (time_time : list Request -> Z) (self : VAPIX.VAPIXCamera)
  (payload : list (string * value)) (w : World) :
  sent (snd (VAPIX.cmd net get_text time_time self payload w))
  = (sent w ++ [VAPIX.request self payload (time_time (sent w))])%list.
Proof.
  unfold VAPIX.cmd, bind, get.
  destruct (net (sent w) _) as [e | response]; cbn; [reflexivity |].
  destruct (negb (status_code response =? 200)%Z && negb (status_code response =? 204)%Z);
    cbn; [| reflexivity].
  destruct (status_code response =? 401)%Z; reflexivity.
Qed.


(** How [__cmd] of the SUNAPI facade ends when the network answers. *)
Lemma sunapi_cmd_answered (net : Network) (get_text : string -> string)
  (self : SUNAPI.SUNAPICamera) (cgi : string) (payload : list (string * value))
  (w : World) (response : Response) :
  net (sent w) (SUNAPI.request self cgi payload) = inr response ->
  SUNAPI.cmd net get_text self cgi payload w
  = if ((status_code response =? 200) || (status_code response =? 204))%Z
    then (Return response,
          {| sent := sent w ++ [SUNAPI.request self cgi payload];
             printed := printed w |})
    else (if (status_code response =? 401)%Z then Exit 1 else Return response,
          {| sent := sent w ++ [SUNAPI.request self cgi payload];
             printed := printed w ++ ["%s " ++ get_text (text response)] |}).
Proof.
  intros H. unfold SUNAPI.cmd, bind, get. rewrite H. cbn.
  destruct (status_code response =? 200)%Z, (status_code response =? 204)%Z,
    (status_code response =? 401)%Z; reflexivity.
Qed.

(** X11.  [snap_shot] opens an image only for status 200, and then returns
    it or raises what opening raised; for status 204 it returns None and
    prints nothing; for any other status except 401 it returns None after
    the body has been printed; for 401 the process exits. *)
Theorem snap_shot_status
  (net : Network) (get_text : string -> string) (self : SUNAPI.SUNAPICamera)
  (Image : Type) (Image_open : Response -> exn + Image)
  (w : World) (response : Response) :
  let rq :=
    SUNAPI.request self "video.cgi"
      [("msubmenu", VStr "snapshot"); ("action", VStr "view")] in
  let quiet := {| sent := sent w ++ [rq]; printed := printed w |} in
  let reported :=
    {| sent := sent w ++ [rq];
       printed := printed w ++ ["%s " ++ get_text (text response)] |} in
  net (sent w) rq = inr response ->
  (status_code response = 200%Z ->
   SUNAPI.snap_shot net get_text Image Image_open self w
   = match Image_open response with
     | inr image => (Return (Some image), quiet)
     | inl e => (Raise e, quiet)
     end) /\
  (status_code response = 204%Z ->
   SUNAPI.snap_shot net get_text Image Image_open self w = (Return None, quiet)) /\
  (status_code response <> 200%Z -> status_code response <> 204%Z ->
   status_code response <> 401%Z ->
   SUNAPI.snap_shot net get_text Image Image_open self w = (Return None, reported)) /\
  (status_code response = 401%Z ->
   SUNAPI.snap_shot net get_text Image Image_open self w = (Exit 1, reported)).
Proof.
  intros rq quiet reported Hnet. subst rq quiet reported.
  pose proof (sunapi_cmd_answered net get_text self _ _ w response Hnet) as Hcmd.
  unfold SUNAPI.snap_shot.
  repeat split; intros.
  - rewrite H in Hcmd. rewrite (bind_Return _ _ _ _ _ Hcmd), H. cbn.
    destruct (Image_open response); reflexivity.
  - rewrite H in Hcmd. rewrite (bind_Return _ _ _ _ _ Hcmd), H. reflexivity.
  - destruct (Z.eqb_spec (status_code response) 200%Z); [contradiction |].
    destruct (Z.eqb_spec (status_code response) 204%Z); [contradiction |].
    destruct (Z.eqb_spec (status_code response) 401%Z); [contradiction |].
    rewrite (bind_Return _ _ _ _ _ Hcmd).
    destruct (Z.eqb_spec (status_code response) 200%Z); [contradiction |].
    reflexivity.
  - rewrite H in Hcmd. now rewrite (bind_Exit _ _ _ _ _ Hcmd).
Qed.

Lemma snap_shot_status_witness :
  SUNAPI.snap_shot (Demo.answering 204 "") Demo.plain string
    (fun r => inr (text r)) Demo.sunapi boot
  = (Return None,
     {| sent := [SUNAPI.request Demo.sunapi "video.cgi"
                   [("msubmenu", VStr "snapshot"); ("action", VStr "view")]];
        printed := [] |}).
Proof.
  apply (proj1 (proj2 (snap_shot_status (Demo.answering 204 "") Demo.plain
                         Demo.sunapi string (fun r => inr (text r)) boot
                         {| status_code := 204; text := "" |} eq_refl))).
  reflexivity.
Defined.

(** X12.  [absolute_move] and the other pass-through operations never query
    the status and never alter an argument: however the exchange ends, the
    one request each of them sends carries the arguments as they were
    given, out of range or not. *)
Theorem pass_through_requests
  (net : Network) (get_text : string -> string) (self : SUNAPI.SUNAPICamera)
  (pan tilt zoom x1 y1 x2 y2 tile_width tile_height speed channel preset
     : option PrimFloat.float)
  (direction preset_name command : option string) (w : World) :
  let sends (run : outcome Response * World) cgi payload :=
    sent (snd run) = (sent w ++ [SUNAPI.request self cgi payload])%list in
  sends (SUNAPI.absolute_move net get_text self pan tilt zoom w) "ptzcontrol.cgi"
    [("msubmenu", VStr "absolute"); ("action", VStr "control");
     ("Pan", num pan); ("Tilt", num tilt); ("Zoom", num zoom);
     ("ZoomPulse", VNone); ("Channel", VNone)] /\
  sends (SUNAPI.stop net get_text self w) "ptzcontrol.cgi"
    [("msubmenu", VStr "stop"); ("action", VStr "control");
     ("OperationType", VStr "All")] /\
  sends (SUNAPI.area_zoom net get_text self x1 y1 x2 y2 tile_width tile_height w)
    "ptzcontrol.cgi"
    [("msubmenu", VStr "areazoom"); ("action", VStr "control");
     ("X1", num x1); ("X2", num x2); ("Y1", num y1); ("Y2", num y2);
     ("TileWidth", num tile_width); ("TileHeight", num tile_height)] /\
  sends (SUNAPI.movement_control net get_text self direction speed w) "ptzcontrol.cgi"
    [("msubmenu", VStr "move"); ("action", VStr "control");
     ("Direction", SUNAPI.mode_value direction); ("MoveSpeed", num speed)] /\
  sends (SUNAPI.go_to_home_position net get_text self channel w) "ptzcontrol.cgi"
    [("msubmenu", VStr "home"); ("action", VStr "control"); ("Channel", num channel)] /\
  sends (SUNAPI.go_to_preset_position net get_text self preset preset_name w)
    "ptzcontrol.cgi"
    [("msubmenu", VStr "preset"); ("action", VStr "control");
     ("Preset", num preset); ("PresetName", SUNAPI.mode_value preset_name)] /\
  sends (SUNAPI.zoom_out net get_text self w) "ptzcontrol.cgi"
    [("msubmenu", VStr "areazoom"); ("action", VStr "control"); ("Type", VStr "1x")] /\
  sends (SUNAPI.aux_control net get_text self command w) "ptzcontrol.cgi"
    [("msubmenu", VStr "aux"); ("action", VStr "control");
     ("Command", SUNAPI.mode_value command)] /\
  sends (SUNAPI.attributes_information net get_text self w) "attributes.cgi" [] /\
  sends (SUNAPI.applications net get_text self w) "opensdk.cgi"
    [("msubmenu", VStr "apps"); ("action", VStr "view")].
Proof.
  cbv zeta. repeat split; apply sunapi_cmd_sent.
Qed.

(** ** VAPIX: the parameter dictionary *)

(** Looking a key up after [d[k'] = v]. *)
Lemma lookup_setitem (k k' : string) (v : value) (d : list (string * value)) :
  lookup k (VAPIX.setitem k' v d) = if String.eqb k k' then Some v else lookup k d.
Proof.
  induction d as [| [k0 v0] d IH]; cbn.
  - reflexivity.
  - destruct (String.eqb_spec k' k0) as [-> | N]; cbn.
    + destruct (String.eqb k k0); reflexivity.
    + destruct (String.eqb_spec k k0) as [-> | N0].
      * destruct (String.eqb_spec k0 k') as [E | _]; [now elim N | reflexivity].
      * exact IH.
Qed.

(** The keys of a dictionary after [d[k] = v]: the same, or one more. *)
Lemma setitem_keys (k : string) (v : value) (d : list (string * value)) :
  (In k (map fst d) /\ map fst (VAPIX.setitem k v d) = map fst d) \/
  (~ In k (map fst d) /\ map fst (VAPIX.setitem k v d) = (map fst d ++ [k])%list).
Proof.
  induction d as [| [k0 v0] d IH]; cbn.
  - right. split; [intros [] | reflexivity].
  - destruct (String.eqb_spec k k0) as [-> | N]; cbn.
    + left. split; [now left | reflexivity].
    + destruct IH as [[Hin E] | [Hout E]]; rewrite E.
      * left. split; [now right | reflexivity].
      * right. split; [| reflexivity].
        intros [E0 | Hin]; [now elim N | contradiction].
Qed.

(** Assignment keeps the keys distinct. *)
Lemma setitem_NoDup (k : string) (v : value) (d : list (string * value)) :
  NoDup (map fst d) -> NoDup (map fst (VAPIX.setitem k v d)).
Proof.
  intros H. destruct (setitem_keys k v d) as [[_ E] | [Hout E]]; rewrite E.
  - exact H.
  - apply NoDup_app; [exact H | constructor; [intros [] | constructor] |].
    intros x Hx [<- | []]. contradiction.
Qed.

Lemma update_NoDup (results dictionary : list (string * value)) :
  NoDup (map fst results) -> NoDup (map fst (VAPIX.update results dictionary)).
Proof.
  revert results. unfold VAPIX.update.
  induction dictionary as [| [k v] d IH]; intros results H; cbn.
  - exact H.
  - apply IH. now apply setitem_NoDup.
Qed.

(** Looking a key up after [results.update(dictionary)], for a dictionary
    with distinct keys: the entry of [dictionary] wins. *)
Lemma lookup_update (k : string) (results dictionary : list (string * value)) :
  NoDup (map fst dictionary) ->
  lookup k (VAPIX.update results dictionary)
  = match lookup k dictionary with
    | Some v => Some v
    | None => lookup k results
    end.
Proof.
  revert results. unfold VAPIX.update.
  induction dictionary as [| [k0 v0] d IH]; intros results Hd; cbn.
  - reflexivity.
  - inversion Hd as [| ? ? Hout Hd']; subst.
    rewrite IH by exact Hd'. rewrite lookup_setitem.
    destruct (String.eqb_spec k k0) as [-> | N]; [| reflexivity].
    assert (Hnone : lookup k0 d = None).
    { clear -Hout. induction d as [| [k1 v1] d IHd]; cbn; [reflexivity |].
      destruct (String.eqb_spec k0 k1) as [-> | N1].
      - elim Hout. now left.
      - apply IHd. intros Hin. apply Hout. now right. }
    now rewrite Hnone.
Qed.

Lemma lookup_merge_from (k : string) (args : list (list (string * value)))
  (results : list (string * value)) :
  Forall (fun d => NoDup (map fst d)) args ->
  lookup k (fold_left VAPIX.update args results)
  = fold_left (fun found d => match lookup k d with
                              | Some v => Some v
                              | None => found
                              end) args (lookup k results).
Proof.
  intros H. revert results.
  induction H as [| d args Hd _ IH]; intros results; cbn.
  - reflexivity.
  - rewrite IH. now rewrite lookup_update.
Qed.

Lemma merge_from_NoDup (args : list (list (string * value)))
  (results : list (string * value)) :
  NoDup (map fst results) -> NoDup (map fst (fold_left VAPIX.update args results)).
Proof.
  revert results. induction args as [| d args IH]; intros results H; cbn.
  - exact H.
  - apply IH. now apply update_NoDup.
Qed.

(** X13.  [__merge] gives a dictionary with distinct keys, and for
    dictionaries with distinct keys a key has the value of the last
    dictionary that holds it: precedence goes to the latter dictionaries. *)
Theorem merge_precedence (args : list (list (string * value))) :
  NoDup (map fst (VAPIX.merge args)) /\
  (Forall (fun d => NoDup (map fst d)) args ->
   forall k,
     lookup k (VAPIX.merge args)
     = fold_left (fun found d => match lookup k d with
                                 | Some v => Some v
                                 | None => found
                                 end) args None).
Proof.
  split.
  - apply merge_from_NoDup. constructor.
  - intros H k. unfold VAPIX.merge. now rewrite lookup_merge_from.
Qed.

Lemma merge_precedence_witness :
  lookup "speed" (VAPIX.merge [[("speed", VNum 10); ("pan", VNum 5)];
                               [("tilt", VNum 1)];
                               [("speed", VNum 90)]])
  = Some (VNum 90).
Proof.
  rewrite (proj2 (merge_precedence [[("speed", VNum 10); ("pan", VNum 5)];
                                    [("tilt", VNum 1)];
                                    [("speed", VNum 90)]])).
  - reflexivity.
  - repeat constructor; cbn; intuition discriminate.
Defined.

(** X14.  In every request of the VAPIX facade the parameters camera, html
    and timestamp are 1, "no" and the time of the call, whatever the payload
    holds under those keys; every other key of a payload with distinct keys
    keeps its value, and no other key is added. *)
Theorem vapix_request_parameters
  (self : VAPIX.VAPIXCamera) (payload : list (string * value)) (now : Z) :
  let sent_params := params (VAPIX.request self payload now) in
  lookup "camera" sent_params = Some (VInt 1) /\
  lookup "html" sent_params = Some (VStr "no") /\
  lookup "timestamp" sent_params = Some (VInt now) /\
  (NoDup (map fst payload) ->
   forall k, k <> "camera" -> k <> "html" -> k <> "timestamp" ->
     lookup k sent_params = lookup k payload).
Proof.
  cbv zeta. unfold VAPIX.request, VAPIX.merge. cbn [params fold_left].
  assert (Hargs : NoDup (map fst [("camera", VInt 1); ("html", VStr "no");
                                  ("timestamp", VInt now)])).
  { repeat constructor; cbn; intuition discriminate. }
  repeat split.
  - rewrite lookup_update by exact Hargs. reflexivity.
  - rewrite lookup_update by exact Hargs. reflexivity.
  - rewrite lookup_update by exact Hargs. reflexivity.
  - intros Hpayload k Hc Hh Ht.
    rewrite lookup_update by exact Hargs. cbn.
    destruct (String.eqb_spec k "camera"); [contradiction |].
    destruct (String.eqb_spec k "html"); [contradiction |].
    destruct (String.eqb_spec k "timestamp"); [contradiction |].
    rewrite lookup_update by exact Hpayload.
    destruct (lookup k payload); reflexivity.
Qed.

Lemma vapix_request_parameters_witness :
  lookup "camera"
    (params (VAPIX.request Demo.vapix [("camera", VInt 2); ("pan", VNum 5)] 17))
  = Some (VInt 1) /\
  lookup "pan"
    (params (VAPIX.request Demo.vapix [("camera", VInt 2); ("pan", VNum 5)] 17))
  = Some (VNum 5).
Proof.
  destruct (vapix_request_parameters Demo.vapix
              [("camera", VInt 2); ("pan", VNum 5)] 17)
    as (Hcamera & _ & _ & Hother).
  split; [exact Hcamera |].
  rewrite Hother; [reflexivity | | discriminate | discriminate | discriminate].
  repeat constructor; cbn; intuition discriminate.
Defined.

(** ** VAPIX: decoding the replies *)


Section VAPIX_decoding.

Variable int : string -> option Z.



(** A line without the separator is a single piece. *)
Lemma split_on_absent (sep : ascii) (s : string) :
  (forall c, In c (list_ascii_of_string s) -> c <> sep) ->
  Text.split_on sep s = [s].
Proof.
  induction s as [| c s IH]; intros H; cbn; [reflexivity |].
  destruct (Ascii.eqb_spec c sep) as [E | _].
  - exfalso. apply (H c); [now left | exact E].
  - rewrite IH; [reflexivity |]. intros c' Hc'. apply H. now right.
Qed.



End VAPIX_decoding.



(** The concrete run on a listing: the heading and the empty last line are
    left out, the carriage returns are stripped, and a name is cut at its
    first equals sign. *)
Example list_all_preset_listing :
  fst (VAPIX.list_all_preset (Demo.answering 200 Demo.preset_listing) Demo.plain
         Demo.clock Text.integer Demo.vapix boot)
  = Return [(1%Z, "Home"); (12%Z, "Back")].
Proof. reflexivity. Qed.



(** A field of a VAPIX reply is decoded, or it raises IndexError or
    ValueError; the world stays as it is. *)
Lemma vapix_field_outcome (float : string -> option PrimFloat.float) (body : string) (i : nat)
  (w : World) :
  (exists q, VAPIX.field float body i w = (Return q, w)) \/
  VAPIX.field float body i w = (Raise IndexError, w) \/
  VAPIX.field float body i w = (Raise ValueError, w).
Proof.
  unfold VAPIX.field, bind, opt, ret, raise.
  destruct (nth_error (Text.split body) i) as [token |]; [| auto].
  destruct (nth_error (Text.split_on "=" token) 1) as [piece |]; [| auto].
  destruct (float piece) as [q |]; [left; now exists q | auto].
Qed.

Lemma vapix_field_missing (float : string -> option PrimFloat.float) (body : string) (i : nat)
  (w : World) :
  (List.length (Text.split body) <= i)%nat ->
  VAPIX.field float body i w = (Raise IndexError, w).
Proof.
  intros H. unfold VAPIX.field, bind, opt, raise.
  apply nth_error_None in H. now rewrite H.
Qed.

(** X17.  The VAPIX decoders do not return on a reply that is too short:
    with fewer than three white-space separated tokens [get_ptz_status]
    raises IndexError or ValueError, and with no token at all [get_speed]
    raises IndexError; in both cases the request has been sent. *)
Theorem vapix_short_replies
  (net : Network) (get_text : string -> string) (float : string -> option PrimFloat.float)
  (time_time : list Request -> Z) (int : string -> option Z)
  (self : VAPIX.VAPIXCamera) (w wp ws : World) (rp rs : Response) :
  VAPIX.cmd net get_text time_time self [("query", VStr "position")] w
  = (Return rp, wp) ->
  (List.length (Text.split (text rp)) < 3)%nat ->
  VAPIX.cmd net get_text time_time self [("query", VStr "speed")] w
  = (Return rs, ws) ->
  Text.split (text rs) = [] ->
  (exists e : exn,
     (e = IndexError \/ e = ValueError) /\
     VAPIX.get_ptz_status net get_text float time_time self w = (Raise e, wp)) /\
  VAPIX.get_speed net get_text time_time int self w = (Raise IndexError, ws).
Proof.
  intros Hp Hshort Hs Hnone. split.
  - unfold VAPIX.get_ptz_status.
    rewrite (bind_Return _ _ _ _ _ Hp).
    destruct (vapix_field_outcome float (text rp) 0 wp) as [[q0 H0] | [H0 | H0]];
      [rewrite (bind_Return _ _ _ _ _ H0)
      | rewrite (bind_Raise _ _ _ _ _ H0); eauto
      | rewrite (bind_Raise _ _ _ _ _ H0); eauto].
    destruct (vapix_field_outcome float (text rp) 1 wp) as [[q1 H1] | [H1 | H1]];
      [rewrite (bind_Return _ _ _ _ _ H1)
      | rewrite (bind_Raise _ _ _ _ _ H1); eauto
      | rewrite (bind_Raise _ _ _ _ _ H1); eauto].
    rewrite (bind_Raise _ _ _ _ _
               (vapix_field_missing float (text rp) 2 wp ltac:(lia))).
    eauto.
  - unfold VAPIX.get_speed.
    rewrite (bind_Return _ _ _ _ _ Hs). rewrite Hnone. reflexivity.
Qed.

Lemma vapix_short_replies_witness :
  (exists e : exn,
     (e = IndexError \/ e = ValueError) /\
     VAPIX.get_ptz_status (Demo.answering 200 "  ") Demo.plain Text.decimal
       Demo.clock Demo.vapix boot
     = (Raise e, Demo.positioned)) /\
  VAPIX.get_speed (Demo.answering 200 "  ") Demo.plain Demo.clock Text.integer
    Demo.vapix boot
  = (Raise IndexError,
     {| sent := [VAPIX.request Demo.vapix [("query", VStr "speed")] (Demo.clock [])];
        printed := [] |}).
Proof.
  apply (vapix_short_replies (Demo.answering 200 "  ") Demo.plain Text.decimal
           Demo.clock Text.integer Demo.vapix boot _ _
           {| status_code := 200; text := "  " |}
           {| status_code := 200; text := "  " |} eq_refl).
  - vm_compute. lia.
  - reflexivity.
  - reflexivity.
Defined.

(** ** ONVIF: listing presets, and the home position *)

Lemma enumerate_from_fst {A : Type} (i : nat) (l : list A) :
  map fst (ONVIF.enumerate_from i l) = seq i (List.length l).
Proof.
  revert i. induction l as [| x l IH]; intros i; cbn; [reflexivity |].
  now rewrite IH.
Qed.

Lemma enumerate_from_snd {A : Type} (i : nat) (l : list A) :
  map snd (ONVIF.enumerate_from i l) = l.
Proof.
  revert i. induction l as [| x l IH]; intros i; cbn; [reflexivity |].
  now rewrite IH.
Qed.

Lemma length_enumerate_from {A : Type} (i : nat) (l : list A) :
  List.length (ONVIF.enumerate_from i l) = List.length l.
Proof.
  revert i. induction l as [| x l IH]; intros i; cbn; [reflexivity |].
  now rewrite IH.
Qed.

Lemma enumerate_from_app {A : Type} (i : nat) (l1 l2 : list A) :
  ONVIF.enumerate_from i (l1 ++ l2)%list
  = (ONVIF.enumerate_from i l1
     ++ ONVIF.enumerate_from (i + List.length l1) l2)%list.
Proof.
  revert i. induction l1 as [| x l1 IH]; intros i; cbn.
  - now rewrite Nat.add_0_r.
  - rewrite IH. now rewrite Nat.add_succ_r.
Qed.

(** X18.  [get_preset] returns the presets in the order of the device, each
    name paired with its position in the list, counted from 0; a fault of
    [GetPresets] is raised to the caller. *)
Theorem get_preset_enumerates
  (D Resp : Type) (ptz : ONVIF.PTZService D Resp) (self : ONVIF.ONVIFCamera)
  (w : ONVIF.World D) :
  let listed d1 :=
    {| ONVIF.device := d1;
       ONVIF.calls := ONVIF.calls w ++ [ONVIF.CGetPresets (ONVIF.profile self)] |} in
  match ONVIF.GetPresets ptz (ONVIF.device w) (ONVIF.profile self) with
  | (inr presets, d1) =>
      exists entries,
        ONVIF.get_preset D Resp ptz self w = (Return entries, listed d1) /\
        map fst entries = seq 0 (List.length presets) /\
        map snd entries = map ONVIF.Name presets
  | (inl e, d1) => ONVIF.get_preset D Resp ptz self w = (Raise e, listed d1)
  end.
Proof.
  cbv zeta. unfold ONVIF.get_preset, ONVIF.get_preset_complete, ONVIF.invoke, bind.
  destruct (ONVIF.GetPresets ptz (ONVIF.device w) (ONVIF.profile self))
    as [[e | presets] d1]; [reflexivity |].
  eexists. split; [reflexivity |]. split.
  - rewrite map_map. cbn. apply (enumerate_from_fst 0 presets).
  - rewrite map_map. cbn.
    rewrite <- (enumerate_from_snd 0 presets) at 2. now rewrite map_map.
Qed.

(** The concrete run: four presets, one of them without a name. *)
Example get_preset_installed :
  fst (ONVIF.get_preset _ _ Demo.device Demo.onvif Demo.installed)
  = Return [(0%nat, Some "Yard"); (1%nat, Some "Door"); (2%nat, None);
            (3%nat, Some "Door")].
Proof. reflexivity. Qed.

(** X19.  [set_home_position] calls [SetHomePosition] and then [Stop]:
    when the first call faults, [Stop] is not called; when both answer, the
    response of [SetHomePosition] is returned; when [Stop] faults, its
    fault is raised although the home position has been set. *)
Theorem set_home_position_then_stop
  (D Resp : Type) (ptz : ONVIFHome.HomeService D Resp) (self : ONVIF.ONVIFCamera)
  (w : ONVIFHome.World D) :
  let profile := ONVIF.profile self in
  let set := ONVIFHome.CSetHomePosition profile in
  let stop := ONVIFHome.CStop profile in
  match ONVIFHome.SetHomePosition ptz (ONVIFHome.device w) profile with
  | (inl e, d1) =>
      ONVIFHome.set_home_position D Resp ptz self w
      = (Raise e,
         {| ONVIFHome.device := d1; ONVIFHome.calls := ONVIFHome.calls w ++ [set] |})
  | (inr response, d1) =>
      match ONVIFHome.Stop ptz d1 profile with
      | (inr _, d2) =>
          ONVIFHome.set_home_position D Resp ptz self w
          = (Return response,
             {| ONVIFHome.device := d2;
                ONVIFHome.calls := ONVIFHome.calls w ++ [set; stop] |})
      | (inl e, d2) =>
          ONVIFHome.set_home_position D Resp ptz self w
          = (Raise e,
             {| ONVIFHome.device := d2;
                ONVIFHome.calls := ONVIFHome.calls w ++ [set; stop] |})
      end
  end.
Proof.
  cbv zeta. unfold ONVIFHome.set_home_position, ONVIFHome.invoke, bind.
  destruct (ONVIFHome.SetHomePosition ptz (ONVIFHome.device w) (ONVIF.profile self))
    as [[e | response] d1]; [reflexivity |].
  cbn.
  destruct (ONVIFHome.Stop ptz d1 (ONVIF.profile self)) as [[e | r] d2];
    cbn; rewrite <- app_assoc; reflexivity.
Qed.

(** The concrete run on a service that cannot stop: the home position is
    stored on the device, and the caller gets the fault of [Stop]. *)
Example set_home_position_restless :
  ONVIFHome.set_home_position _ _ Demo.restless Demo.onvif
    {| ONVIFHome.device := 0%nat; ONVIFHome.calls := [] |}
  = (Raise (Fault "cannot stop"),
     {| ONVIFHome.device := 1%nat;
        ONVIFHome.calls := [ONVIFHome.CSetHomePosition "Profile_1";
                            ONVIFHome.CStop "Profile_1"] |}).
Proof. reflexivity. Qed.

(** ** ONVIF: how the preset operations compose *)

Section ONVIF_composition.

Variables D Resp : Type.
Variable ptz : ONVIF.PTZService D Resp.
Variable self : ONVIF.ONVIFCamera.

(** [set_preset] on a list that holds the name. *)
Lemma set_preset_found (name : string) (w : ONVIF.World D)
  (presets : list ONVIF.Preset) (d1 : D) :
  ONVIF.GetPresets ptz (ONVIF.device w) (ONVIF.profile self) = (inr presets, d1) ->
  (exists q, In q presets /\ str (ONVIF.Name q) = name) ->
  ONVIF.set_preset D Resp ptz self name w
  = (Return None,
     {| ONVIF.device := d1;
        ONVIF.calls := ONVIF.calls w ++ [ONVIF.CGetPresets (ONVIF.profile self)] |}).
Proof.
  intros Hlist Hex. unfold ONVIF.set_preset.
  rewrite (bind_Return _ _ _ _ _ (get_preset_complete_run D Resp ptz self w presets d1 Hlist)).
  destruct (first_match_split name presets Hex) as (before & p & after & -> & Hp & Hb).
  now rewrite for_first_named_first.
Qed.

(** After a [set_preset] that returned, a device that keeps its presets
    lists an entry with the name. *)
Lemma set_preset_then_listed (name : string) (w w' : ONVIF.World D)
  (result : option Resp) :
  ONVIF.Retentive ptz ->
  ONVIF.set_preset D Resp ptz self name w = (Return result, w') ->
  exists presets,
    ONVIF.GetPresets ptz (ONVIF.device w') (ONVIF.profile self)
    = (inr presets, ONVIF.device w') /\
    exists q, In q presets /\ str (ONVIF.Name q) = name.
Proof.
  intros [Hrepeat Hcreated] Hset.
  destruct (ONVIF.GetPresets ptz (ONVIF.device w) (ONVIF.profile self))
    as [[e | presets] d1] eqn:Hlist.
  - unfold ONVIF.set_preset, ONVIF.get_preset_complete, ONVIF.invoke, bind in Hset.
    rewrite Hlist in Hset. discriminate.
  - destruct (named_or_not name presets) as [Hex | Hno].
    + rewrite (set_preset_found name w presets d1 Hlist Hex) in Hset.
      injection Hset as _ <-. cbn.
      exists presets. split; [| exact Hex].
      apply Hrepeat with (d := ONVIF.device w). exact Hlist.
    + unfold ONVIF.set_preset in Hset.
      rewrite (bind_Return _ _ _ _ _
                 (get_preset_complete_run D Resp ptz self w presets d1 Hlist)) in Hset.
      rewrite for_first_named_none in Hset by exact Hno.
      unfold bind, ONVIF.invoke in Hset. cbn in Hset.
      destruct (ONVIF.SetPreset ptz d1 (ONVIF.profile self) name)
        as [[e | r] d2] eqn:Hcreate; cbn in Hset; [discriminate |].
      injection Hset as _ <-. cbn.
      exact (Hcreated _ _ _ _ _ Hcreate).
Qed.

End ONVIF_composition.

(** X20.  On a device that keeps its presets, after [set_preset] of a name
    has returned, the device lists an entry with that name: [get_preset]
    returns it, and [go_to_preset] of that name makes a [GotoPreset] call
    with the token of the first entry of the listing that has the name, so
    it does not come back empty-handed. *)
Theorem set_preset_then_resolved
  (D Resp : Type) (ptz : ONVIF.PTZService D Resp) (self : ONVIF.ONVIFCamera)
  (name : string) (w w' : ONVIF.World D) (result : option Resp) :
  ONVIF.Retentive ptz ->
  ONVIF.set_preset D Resp ptz self name w = (Return result, w') ->
  exists (before : list ONVIF.Preset) (preset : ONVIF.Preset)
         (after : list ONVIF.Preset),
    ONVIF.GetPresets ptz (ONVIF.device w') (ONVIF.profile self)
    = (inr (before ++ preset :: after)%list, ONVIF.device w') /\
    str (ONVIF.Name preset) = name /\
    (forall q, In q before -> str (ONVIF.Name q) <> name) /\
    (exists entries,
       ONVIF.get_preset D Resp ptz self w'
       = (Return entries,
          {| ONVIF.device := ONVIF.device w';
             ONVIF.calls :=
               ONVIF.calls w' ++ [ONVIF.CGetPresets (ONVIF.profile self)] |}) /\
       nth_error entries (List.length before)
       = Some (List.length before, ONVIF.Name preset)) /\
    ONVIF.go_to_preset D Resp ptz self name w'
    = match ONVIF.GotoPreset ptz (ONVIF.device w') (ONVIF.profile self)
              (ONVIF.token preset) with
      | (inr response, d2) =>
          (Return (Some response),
           {| ONVIF.device := d2;
              ONVIF.calls :=
                ONVIF.calls w'
                ++ [ONVIF.CGetPresets (ONVIF.profile self);
                    ONVIF.CGotoPreset (ONVIF.profile self) (ONVIF.token preset)] |})
      | (inl e, d2) =>
          (Raise e,
           {| ONVIF.device := d2;
              ONVIF.calls :=
                ONVIF.calls w'
                ++ [ONVIF.CGetPresets (ONVIF.profile self);
                    ONVIF.CGotoPreset (ONVIF.profile self) (ONVIF.token preset)] |})
      end.
Proof.
  intros Hdevice Hset.
  destruct (set_preset_then_listed D Resp ptz self name w w' result Hdevice Hset)
    as (presets & Hlist & Hex).
  destruct (first_match_split name presets Hex) as (before & p & after & E & Hp & Hb).
  subst presets.
  pose proof (get_preset_complete_run D Resp ptz self w' _ _ Hlist) as Hrun.
  exists before, p, after.
  split; [exact Hlist |]. split; [exact Hp |]. split; [exact Hb |].
  split.
  - unfold ONVIF.get_preset. rewrite (bind_Return _ _ _ _ _ Hrun).
    eexists. split; [reflexivity |].
    rewrite nth_error_map, enumerate_from_app, nth_error_app2;
      rewrite length_enumerate_from; [| lia].
    rewrite Nat.sub_diag. reflexivity.
  - unfold ONVIF.go_to_preset. rewrite (bind_Return _ _ _ _ _ Hrun).
    rewrite for_first_named_first by assumption.
    unfold bind, ONVIF.invoke. cbn.
    destruct (ONVIF.GotoPreset ptz (ONVIF.device w') _ _) as [[e | r] d2];
      cbn; rewrite <- app_assoc; reflexivity.
Qed.

Lemma set_preset_then_resolved_witness :
  exists (before : list ONVIF.Preset) (preset : ONVIF.Preset),
    str (ONVIF.Name preset) = "Dock" /\
    (forall q, In q before -> str (ONVIF.Name q) <> "Dock") /\
    ONVIF.go_to_preset _ _ Demo.device Demo.onvif "Dock"
      (snd (ONVIF.set_preset _ _ Demo.device Demo.onvif "Dock" Demo.installed))
    = (Return (Some ("at " ++ ONVIF.token preset)),
       {| ONVIF.device :=
            (Demo.presets
             ++ [{| ONVIF.Name := Some "Dock"; ONVIF.token := "token:Dock" |}])%list;
          ONVIF.calls :=
            [ONVIF.CGetPresets "Profile_1"; ONVIF.CSetPreset "Profile_1" "Dock";
             ONVIF.CGetPresets "Profile_1";
             ONVIF.CGotoPreset "Profile_1" (ONVIF.token preset)] |}).
Proof.
  destruct (set_preset_then_resolved _ _ Demo.device Demo.onvif "Dock"
              Demo.installed _ (Some "token:Dock") demo_device_retentive eq_refl)
    as (before & preset & after & _ & Hname & Hfirst & _ & Hgo).
  exists before, preset.
  split; [exact Hname |]. split; [exact Hfirst | exact Hgo].
Defined.

(** X21.  [str] turns an absent name into the text None: when the device
    lists an entry without a name, [set_preset] of the name None finds a
    match, so it makes no [SetPreset] call and returns None. *)
Theorem set_preset_None_with_nameless_entry
  (D Resp : Type) (ptz : ONVIF.PTZService D Resp) (self : ONVIF.ONVIFCamera)
  (w : ONVIF.World D) (presets : list ONVIF.Preset) (d1 : D) :
  ONVIF.GetPresets ptz (ONVIF.device w) (ONVIF.profile self) = (inr presets, d1) ->
  (exists q, In q presets /\ ONVIF.Name q = None) ->
  ONVIF.set_preset D Resp ptz self "None" w
  = (Return None,
     {| ONVIF.device := d1;
        ONVIF.calls := ONVIF.calls w ++ [ONVIF.CGetPresets (ONVIF.profile self)] |}).
Proof.
  intros Hlist (q & Hq & Hname).
  apply set_preset_found with (presets := presets); [exact Hlist |].
  exists q. split; [exact Hq |]. now rewrite Hname.
Qed.

Lemma set_preset_None_with_nameless_entry_witness :
  ONVIF.set_preset _ _ Demo.device Demo.onvif "None" Demo.installed
  = (Return None,
     {| ONVIF.device := Demo.presets;
        ONVIF.calls := [ONVIF.CGetPresets "Profile_1"] |}).
Proof.
  apply (set_preset_None_with_nameless_entry _ _ Demo.device Demo.onvif
           Demo.installed Demo.presets Demo.presets eq_refl).
  exists {| ONVIF.Name := None; ONVIF.token := "3" |}.
  split; [cbn; auto | reflexivity].
Defined.

(** X22.  When [GetPresets] faults, [set_preset], [remove_preset],
    [go_to_preset] and [get_preset] raise that fault, and the list fetch is
    the only call they have made. *)
Theorem preset_operations_list_fault
  (D Resp : Type) (ptz : ONVIF.PTZService D Resp) (self : ONVIF.ONVIFCamera)
  (name : string) (w : ONVIF.World D) (e : exn) (d1 : D) :
  ONVIF.GetPresets ptz (ONVIF.device w) (ONVIF.profile self) = (inl e, d1) ->
  let failed :=
    {| ONVIF.device := d1;
       ONVIF.calls := ONVIF.calls w ++ [ONVIF.CGetPresets (ONVIF.profile self)] |} in
  ONVIF.set_preset D Resp ptz self name w = (Raise e, failed) /\
  ONVIF.remove_preset D Resp ptz self name w = (Raise e, failed) /\
  ONVIF.go_to_preset D Resp ptz self name w = (Raise e, failed) /\
  ONVIF.get_preset D Resp ptz self w = (Raise e, failed).
Proof.
  intros H failed.
  assert (Hrun : ONVIF.get_preset_complete D Resp ptz self w = (Raise e, failed)).
  { unfold ONVIF.get_preset_complete, ONVIF.invoke. now rewrite H. }
  unfold ONVIF.set_preset, ONVIF.remove_preset, ONVIF.go_to_preset, ONVIF.get_preset.
  rewrite !(bind_Raise _ _ _ _ _ Hrun). repeat split.
Qed.

Lemma preset_operations_list_fault_witness :
  ONVIF.remove_preset _ _
    {| ONVIF.GetPresets := fun (d : nat) _ => (inl (Fault "offline"), d);
       ONVIF.SetPreset := fun d _ _ => (inr "created", S d);
       ONVIF.RemovePreset := fun d _ _ => (inr "removed", d);
       ONVIF.GotoPreset := fun d _ _ => (inr "moving", d) |}
    Demo.onvif "Door" {| ONVIF.device := 0%nat; ONVIF.calls := [] |}
  = (Raise (Fault "offline"),
     {| ONVIF.device := 0%nat; ONVIF.calls := [ONVIF.CGetPresets "Profile_1"] |}).
Proof.
  exact (proj1 (proj2 (preset_operations_list_fault _ _
                         {| ONVIF.GetPresets := fun (d : nat) _ => (inl (Fault "offline"), d);
                            ONVIF.SetPreset := fun d _ _ => (inr "created", S d);
                            ONVIF.RemovePreset := fun d _ _ => (inr "removed", d);
                            ONVIF.GotoPreset := fun d _ _ => (inr "moving", d) |}
                         Demo.onvif "Door"
                         {| ONVIF.device := 0%nat; ONVIF.calls := [] |}
                         (Fault "offline") 0%nat eq_refl))).
Defined.

(** ** VAPIX: coordinates written as text *)

(** The decimal form of an unsigned number holds digits only. *)
Lemma string_of_uint_digits (d : Decimal.uint) (c : ascii) :
  In c (list_ascii_of_string (NilEmpty.string_of_uint d)) ->
  (48 <= nat_of_ascii c <= 57)%nat.
Proof.
  induction d; cbn; intros H; try (destruct H as [<- | H]; [cbn; lia | auto]).
  destruct H.
Qed.

(** [str(n)] holds no comma. *)
Lemma str_int_no_comma (n : Z) (c : ascii) :
  In c (list_ascii_of_string (VAPIX.str_int n)) -> c <> ","%char.
Proof.
  unfold VAPIX.str_int.
  assert (U : forall d, In c (list_ascii_of_string (NilZero.string_of_uint d)) ->
                        c <> ","%char).
  { intros d H.
    assert (R : (48 <= nat_of_ascii c <= 57)%nat).
    { destruct d; try exact (string_of_uint_digits _ c H).
      cbn in H. destruct H as [<- | []]. cbn. lia. }
    intros ->. cbn in R. lia. }
  destruct (Z.to_int n) as [d | d]; cbn [NilZero.string_of_int].
  - apply U.
  - cbn. intros [<- | H]; [discriminate | now apply U in H].
Qed.

(** [str] of integers is one to one. *)
Lemma str_int_inj (n n' : Z) : VAPIX.str_int n = VAPIX.str_int n' -> n = n'.
Proof.
  unfold VAPIX.str_int. intros H.
  assert (P : forall z, Z.to_int z <> Decimal.Pos Decimal.Nil /\
                        Z.to_int z <> Decimal.Neg Decimal.Nil).
  { intros [| p | p]; cbn; split; try discriminate;
      intros [= E]; exact (Unsigned.to_uint_nonnil p E). }
  apply DecimalZ.to_int_inj.
  assert (E : Some (Z.to_int n) = Some (Z.to_int n')).
  { rewrite <- (NilZero.isi (Z.to_int n)) by apply P.
    rewrite <- (NilZero.isi (Z.to_int n')) by apply P.
    now rewrite H. }
  now injection E.
Qed.

(** Splitting at a separator that the first part does not hold. *)
Lemma split_on_app (sep : ascii) (a b : string) :
  (forall c, In c (list_ascii_of_string a) -> c <> sep) ->
  Text.split_on sep (a ++ String sep b) = a :: Text.split_on sep b.
Proof.
  induction a as [| c a IH]; intros H; cbn.
  - now rewrite Ascii.eqb_refl.
  - destruct (Ascii.eqb_spec c sep) as [E | _].
    + exfalso. apply (H c); [now left | exact E].
    + rewrite IH; [reflexivity |]. intros c' Hc'. apply H. now right.
Qed.

(** Two coordinates joined by a comma can be told apart again. *)
Lemma comma_pair_inj (x y x' y' : Z) :
  VAPIX.str_int x ++ "," ++ VAPIX.str_int y
  = VAPIX.str_int x' ++ "," ++ VAPIX.str_int y' ->
  x = x' /\ y = y'.
Proof.
  intros H.
  apply (f_equal (Text.split_on ",")) in H.
  cbn [append] in H.
  rewrite !split_on_app in H by apply str_int_no_comma.
  rewrite !split_on_absent in H by apply str_int_no_comma.
  injection H as Hx Hy. split; now apply str_int_inj.
Qed.

Lemma comma_triple_inj (x y z x' y' z' : Z) :
  VAPIX.str_int x ++ "," ++ VAPIX.str_int y ++ "," ++ VAPIX.str_int z
  = VAPIX.str_int x' ++ "," ++ VAPIX.str_int y' ++ "," ++ VAPIX.str_int z' ->
  x = x' /\ y = y' /\ z = z'.
Proof.
  intros H.
  apply (f_equal (Text.split_on ",")) in H.
  cbn [append] in H.
  rewrite !split_on_app in H by apply str_int_no_comma.
  rewrite !split_on_absent in H by apply str_int_no_comma.
  injection H as Hx Hy Hz. repeat split; now apply str_int_inj.
Qed.

(** What is sent determines the request. *)
Lemma sent_last_inj (l : list Request) (rq rq' : Request) :
  (l ++ [rq])%list = (l ++ [rq'])%list -> rq = rq'.
Proof.
  intros H. apply app_inv_head in H. now injection H.
Qed.

(** X23.  The text that [continuous_move], [center_move] and [area_zoom]
    make of their integer coordinates is unambiguous: two calls from the
    same world that send the same request were given the same
    coordinates. *)
Theorem coordinates_unambiguous
  (net : Network) (get_text : string -> string) (time_time : list Request -> Z)
  (self : VAPIX.VAPIXCamera) (w : World)
  (x y z x' y' z' : Z) (a a' : option PrimFloat.float) :
  (sent (snd (VAPIX.continuous_move net get_text time_time self x y a w))
   = sent (snd (VAPIX.continuous_move net get_text time_time self x' y' a' w)) ->
   x = x' /\ y = y') /\
  (sent (snd (VAPIX.center_move net get_text time_time self x y a w))
   = sent (snd (VAPIX.center_move net get_text time_time self x' y' a' w)) ->
   x = x' /\ y = y') /\
  (sent (snd (VAPIX.area_zoom net get_text time_time self x y z a w))
   = sent (snd (VAPIX.area_zoom net get_text time_time self x' y' z' a' w)) ->
   x = x' /\ y = y' /\ z = z').
Proof.
  unfold VAPIX.continuous_move, VAPIX.center_move, VAPIX.area_zoom.
  split; [| split]; intros H; rewrite !vapix_cmd_sent in H;
    apply sent_last_inj in H;
    unfold VAPIX.request, VAPIX.merge, VAPIX.update in H; cbn in H;
    injection H as H.
  - now apply comma_pair_inj in H.
  - now apply comma_pair_inj in H.
  - now apply comma_triple_inj in H.
Qed.

Lemma coordinates_unambiguous_witness : (3 = 3 /\ -7 = -7 /\ 150 = 150)%Z.
Proof.
  apply (proj2 (proj2 (coordinates_unambiguous (Demo.answering 200 "OK") Demo.plain
                         Demo.clock Demo.vapix boot 3 (-7) 150 3 (-7) 150
                         (Some 50) (Some 50)))).
  reflexivity.
Defined.

(** The concrete run: the coordinates of [area_zoom] as they are sent. *)
Example area_zoom_request :
  lookup "areazoom"
    (params (VAPIX.request Demo.vapix
               [("areazoom", VStr (VAPIX.str_int 3 ++ "," ++ VAPIX.str_int (-7)
                                   ++ "," ++ VAPIX.str_int 150));
                ("speed", num (Some 50))] 0))
  = Some (VStr "3,-7,150").
Proof. reflexivity. Qed.

